(** * Cell Management System: the monitoring and task-orchestration core

    A shallow embedding of [cellManagementSystem.py].  The program is a
    Streamlit script: its state is the session state ([cells_data],
    [task_queue], [system_logs]) and its operations are the bodies of the
    button handlers.  Each handler is embedded as a function from the
    values of the form widgets and the session state to the new session
    state and what the page shows.  A page renders its buttons only when
    the registry (or, for the queue controls, the queue) is not empty; the
    handlers are embedded as written, for every state.

    Numbers.  The numbers of the program are Python floats (binary64) and
    small ints.  The status rule [get_cell_status], whose result can turn
    on one rounding of [min_voltage + 0.1], is embedded twice: over
    binary64, with the kernel's primitive floats (module [Binary64]), which
    is what the program computes, and over exact rationals [Q].  The rest of
    the model holds its numbers as exact rationals; its statements about
    status use comparisons of stored values and constants only, and its
    statements about scores are ranges.

    Dictionaries.  [cells_data] maps a cell id to a cell; it is a [gmap].
    A cell is itself a dict with a fixed set of keys; it is a record whose
    fields are optional, [None] standing for an absent key, so that
    [cell_data.get(k, 0)] reads as [get_num].

    Time.  [datetime.now()], formatted, is the argument [now] of every
    handler that logs or stamps. *)

From Stdlib Require Import PrimFloat.
From Stdlib Require Import QArith Qabs Qminmax Lqa.
From stdpp Require Import base gmap strings list fin_maps pretty.

Open Scope string_scope.
Set Warnings "-inexact-float".

(** * Part I.  The program *)

(** ** Numbers *)

Module Num.

(** Python's [<], [>], [<=] on numbers, as booleans. *)
Definition lt (x y : Q) : bool := negb (Qle_bool y x).
Definition gt (x y : Q) : bool := lt y x.
Definition le (x y : Q) : bool := Qle_bool x y.

(** Python's [max(a, b)]: the first argument unless the second is strictly
    greater. *)
Definition max (a b : Q) : Q := if gt b a then b else a.

(** Python's [abs]. *)
Definition abs (x : Q) : Q := Qabs x.

End Num.

(** ** Cells *)

(** The options of the "Cell Type" select box. *)
Inductive CellType := lfp | nmc | nca | lto.

Definition cell_type_name (t : CellType) : string :=
  match t with lfp => "lfp" | nmc => "nmc" | nca => "nca" | lto => "lto" end.

(** A cell dict.  The keys are those of [new_cell] in the "Add Cell"
    handler; the sample cells carry no ["type"]. *)
Record Cell := mkCell {
  voltage : option Q;
  current : option Q;
  temp : option Q;
  capacity : option Q;
  min_voltage : option Q;
  max_voltage : option Q;
  soc : option Q;
  cycle_count : option Q;
  type : option string
}.

(** [cell_data.get(key, 0)] *)
Definition get_num (field : Cell -> option Q) (cell_data : Cell) : Q :=
  match field cell_data with Some x => x | None => 0 end.

(** [cell_data[key] = x], for the keys the handlers write. *)
Definition set_voltage (x : Q) (c : Cell) : Cell :=
  mkCell (Some x) (current c) (temp c) (capacity c) (min_voltage c)
    (max_voltage c) (soc c) (cycle_count c) (type c).

Definition set_current (x : Q) (c : Cell) : Cell :=
  mkCell (voltage c) (Some x) (temp c) (capacity c) (min_voltage c)
    (max_voltage c) (soc c) (cycle_count c) (type c).

Definition set_temp (x : Q) (c : Cell) : Cell :=
  mkCell (voltage c) (current c) (Some x) (capacity c) (min_voltage c)
    (max_voltage c) (soc c) (cycle_count c) (type c).

Definition set_soc (x : Q) (c : Cell) : Cell :=
  mkCell (voltage c) (current c) (temp c) (capacity c) (min_voltage c)
    (max_voltage c) (Some x) (cycle_count c) (type c).

(** The three results of [get_cell_status]. *)
Inductive CellStatus := Critical | Warning | Good.

(** [get_cell_status(cell_data)] *)
Definition get_cell_status (cell_data : Cell) : CellStatus :=
  let voltage := get_num voltage cell_data in
  let temp := get_num temp cell_data in
  let min_voltage := get_num min_voltage cell_data in
  let max_voltage := get_num max_voltage cell_data in
  if Num.lt voltage min_voltage || Num.gt voltage max_voltage || Num.gt temp 45
  then Critical
  else if Num.gt temp 35 || Num.lt voltage (min_voltage + 0.1)
  then Warning
  else Good.

(** ** The status of a cell, in binary64

    The same dict and the same function over Python's floats: a decimal
    literal is the nearest binary64 value, [+] rounds to nearest, and the
    comparisons are those of IEEE 754 (every comparison with a NaN is
    false).  An int of the script (45, 35, the default 0) is the float of
    the same value. *)
Module Binary64.

Record Cell := mkCell {
  voltage : option float;
  current : option float;
  temp : option float;
  capacity : option float;
  min_voltage : option float;
  max_voltage : option float;
  soc : option float;
  cycle_count : option float;
  type : option string
}.

(** [cell_data.get(key, 0)] *)
Definition get_num (field : Cell -> option float) (cell_data : Cell) : float :=
  match field cell_data with Some x => x | None => 0%float end.

(** Python's [x > y] on floats. *)
Definition gt (x y : float) : bool := (y <? x)%float.

(** [get_cell_status(cell_data)] *)
Definition get_cell_status (cell_data : Cell) : CellStatus :=
  let voltage := get_num voltage cell_data in
  let temp := get_num temp cell_data in
  let min_voltage := get_num min_voltage cell_data in
  let max_voltage := get_num max_voltage cell_data in
  if (voltage <? min_voltage)%float || gt voltage max_voltage || gt temp 45
  then Critical
  else if gt temp 35 || (voltage <? min_voltage + 0.1)%float
  then Warning
  else Good.

(** The dict literal [new_cell] of the "Add Cell" handler. *)
Definition new_cell (cell_type : CellType)
    (voltage current temp capacity soc cycle_count : float) : Cell :=
  let min_voltage := match cell_type with lfp => 2.8%float | _ => 3.2%float end in
  let max_voltage := match cell_type with lfp => 3.6%float | _ => 4.0%float end in
  mkCell (Some voltage) (Some current) (Some temp) (Some capacity)
    (Some min_voltage) (Some max_voltage) (Some soc) (Some cycle_count)
    (Some (cell_type_name cell_type)).

End Binary64.

(** ** Health scoring

    The body of the loop over [cells_data.items()] in the "Health
    Monitoring" tab, one definition per assignment. *)

Definition voltage_score (cell_data : Cell) : Q :=
  let voltage := get_num voltage cell_data in
  if Num.le 3.0 voltage && Num.le voltage 4.0 then 100
  else Num.max 0 (100 - Num.abs (voltage - 3.5) * 50).

Definition temp_score (cell_data : Cell) : Q :=
  let temp := get_num temp cell_data in
  if Num.le temp 35 then 100 else Num.max 0 (100 - (temp - 35) * 5).

Definition cycle_score (cell_data : Cell) : Q :=
  let cycle_count := get_num cycle_count cell_data in
  Num.max 0 (100 - (cycle_count / 1000) * 100).

Definition soc_score (cell_data : Cell) : Q :=
  let soc := get_num soc cell_data in
  if Num.le 20 soc && Num.le soc 80 then 100
  else Num.max 0 (100 - Num.abs (soc - 50) * 2).

Definition overall_health (cell_data : Cell) : Q :=
  (voltage_score cell_data + temp_score cell_data
   + cycle_score cell_data + soc_score cell_data) / 4.

(** An entry of [health_scores]. *)
Module HealthScore.

Record t := mk {
  overall : Q;
  voltage : Q;
  temperature : Q;
  cycles : Q;
  soc : Q
}.

End HealthScore.

Definition score (cell_data : Cell) : HealthScore.t :=
  HealthScore.mk (overall_health cell_data) (voltage_score cell_data)
    (temp_score cell_data) (cycle_score cell_data) (soc_score cell_data).

Definition health_scores (cells_data : gmap string Cell)
  : gmap string HealthScore.t :=
  score <$> cells_data.

(** ** The event log *)

Inductive Severity := INFO | WARNING | CRITICAL.

Module LogEntry.

Record t := mk {
  timestamp : string;
  type : Severity;
  message : string
}.

End LogEntry.

(** ** Tasks *)

(** The options of the "Task Type" select box. *)
Inductive TaskType := CC_CV | CC_CD | IDLE | BALANCE.

#[global] Instance TaskType_eq_dec : EqDecision TaskType.
Proof. solve_decision. Defined.

Definition task_type_name (t : TaskType) : string :=
  match t with
  | CC_CV => "CC_CV (Charge)"
  | CC_CD => "CC_CD (Discharge)"
  | IDLE => "IDLE"
  | BALANCE => "BALANCE"
  end.

(** The options of the "Priority" select box. *)
Module Priority.

Inductive t := Low | Medium | High | Critical.

End Priority.

#[global] Instance Priority_eq_dec : EqDecision Priority.t.
Proof. solve_decision. Defined.

(** The status labels the script writes ("Queued", "Running", "Paused") or
    tests for ("Running", "Completed"). *)
Inductive Status := Queued | Running | Paused | Completed.

#[global] Instance Status_eq_dec : EqDecision Status.
Proof. solve_decision. Defined.

(** The keys a task gets on top of the common ones, by task type. *)
Inductive TaskParams :=
  | ChargeParams (target_voltage current max_capacity max_temp
                  duration cutoff_voltage : Q)
  | IdleParams (duration : Q)
  | BalanceParams (balance_threshold max_balance_current : Q).

Module Task.

Record t := mk {
  id : string;
  type : TaskType;
  cells : list string;
  priority : Priority.t;
  status : Status;
  created : string;
  description : string;
  params : TaskParams
}.

(** [task["status"] = s] *)
Definition set_status (s : Status) (task : t) : t :=
  mk (id task) (type task) (cells task) (priority task) s
     (created task) (description task) (params task).

(** [==] on the parameter keys: numbers compare by value. *)
Definition params_eqb (p q : TaskParams) : bool :=
  match p, q with
  | ChargeParams a1 a2 a3 a4 a5 a6, ChargeParams b1 b2 b3 b4 b5 b6 =>
    Qeq_bool a1 b1 && Qeq_bool a2 b2 && Qeq_bool a3 b3
    && Qeq_bool a4 b4 && Qeq_bool a5 b5 && Qeq_bool a6 b6
  | IdleParams a, IdleParams b => Qeq_bool a b
  | BalanceParams a1 a2, BalanceParams b1 b2 =>
    Qeq_bool a1 b1 && Qeq_bool a2 b2
  | _, _ => false
  end.

(** [==] on task dicts: the same keys with equal values. *)
Definition eqb (a b : t) : bool :=
  String.eqb (id a) (id b)
  && bool_decide (type a = type b)
  && bool_decide (cells a = cells b)
  && bool_decide (priority a = priority b)
  && bool_decide (status a = status b)
  && String.eqb (created a) (created b)
  && String.eqb (description a) (description b)
  && params_eqb (params a) (params b).

End Task.

(** ** Session state *)

(** [st.session_state]; [historical_data], which only the charts of the
    analytics page read, is left out. *)
Record SessionState := mkState {
  cells_data : gmap string Cell;
  task_queue : list Task.t;
  system_logs : list LogEntry.t
}.

(** The session state of a new session. *)
Definition initial_state : SessionState := mkState ∅ [] [].

(** What the page shows after a click: a message box, a rerun of the
    script, an exception, or nothing. *)
Inductive Feedback :=
  | Success (msg : string)
  | Error (msg : string)
  | Info (msg : string)
  | Rerun
  | Raised (exception : string)
  | Silent.

(** [log_event(event_type, message)] *)
Definition log_event (now : string) (event_type : Severity) (message : string)
    (st : SessionState) : SessionState :=
  mkState (cells_data st) (task_queue st)
    (system_logs st ++ [LogEntry.mk now event_type message]).

(** [d.update(config)]: every member of [config] is stored, in order. *)
Definition dict_update {V : Type} (d : gmap string V)
    (config : list (string * V)) : gmap string V :=
  foldl (λ acc kv, <[kv.1 := kv.2]> acc) d config.

(** ** Dashboard *)

(** [sample_cells] of [generate_sample_data]. *)
Definition sample_cells : list (string * Cell) :=
  [("cell_1_lfp",
    mkCell (Some 3.2%Q) (Some 2.5%Q) (Some 28.5%Q) (Some 8.0%Q) (Some 2.8%Q)
      (Some 3.6%Q) (Some 85%Q) (Some 150%Q) None);
   ("cell_2_nmc",
    mkCell (Some 3.7%Q) (Some 1.8%Q) (Some 32.1%Q) (Some 6.66%Q) (Some 3.2%Q)
      (Some 4.0%Q) (Some 78%Q) (Some 89%Q) None)].

(** The "Load Sample Data" button: [generate_sample_data()] and a rerun. *)
Definition generate_sample_data (st : SessionState) : SessionState * Feedback :=
  (mkState (dict_update (cells_data st) sample_cells) (task_queue st)
     (system_logs st), Rerun).

(** ** Setup page *)

(** The dict literal [new_cell] of the "Add Cell" handler. *)
Definition new_cell (cell_type : CellType)
    (voltage current temp capacity soc cycle_count : Q) : Cell :=
  let min_voltage := match cell_type with lfp => 2.8%Q | _ => 3.2%Q end in
  let max_voltage := match cell_type with lfp => 3.6%Q | _ => 4.0%Q end in
  mkCell (Some voltage) (Some current) (Some temp) (Some capacity)
    (Some min_voltage) (Some max_voltage) (Some soc) (Some cycle_count)
    (Some (cell_type_name cell_type)).

(** The "Add Cell" button.  [if cell_id:] is the test that the string is
    not empty. *)
Definition add_cell (now : string) (cell_type : CellType) (cell_id : string)
    (voltage current temp capacity soc cycle_count : Q)
    (st : SessionState) : SessionState * Feedback :=
  match cell_id with
  | "" => (st, Error "Please enter a valid Cell ID")
  | _ =>
    let cell := new_cell cell_type voltage current temp capacity soc cycle_count in
    let st1 := mkState (<[cell_id := cell]> (cells_data st))
                 (task_queue st) (system_logs st) in
    (log_event now INFO ("Cell " +:+ cell_id +:+ " added successfully") st1,
     Success ("Cell " +:+ cell_id +:+ " added successfully!"))
  end.

(** The "Remove <cell_id>" button of an expander; there is one per key of
    [cells_data]. *)
Definition remove_cell (now : string) (cell_id : string) (st : SessionState)
    : SessionState * Feedback :=
  match cells_data st !! cell_id with
  | None => (st, Silent)
  | Some _ =>
    let st1 := mkState (delete cell_id (cells_data st))
                 (task_queue st) (system_logs st) in
    (log_event now WARNING ("Cell " +:+ cell_id +:+ " removed") st1, Rerun)
  end.

(** The members of the JSON object that [json.dumps(cells_data)] writes and
    [json.loads] reads back: one per key, holding the cell.  The text of the
    document is the [json] module's. *)
Definition export_configuration (st : SessionState) : list (string * Cell) :=
  map_to_list (cells_data st).

(** The upload of a configuration: [cells_data.update(config)]. *)
Definition import_configuration (config : list (string * Cell))
    (st : SessionState) : SessionState * Feedback :=
  (mkState (dict_update (cells_data st) config) (task_queue st) (system_logs st),
   Success "Configuration imported successfully!").

(** ** Control panel *)

(** The "Reset Cell" button: [cell_data.update({"current": 0.0, "temp":
    25.0})] on [cells_data[selected_cell]]. *)
Definition reset_cell (now : string) (selected_cell : string)
    (st : SessionState) : SessionState * Feedback :=
  match cells_data st !! selected_cell with
  | None => (st, Raised "KeyError")
  | Some cell_data =>
    let st1 := mkState (<[selected_cell := set_temp 25.0 (set_current 0.0 cell_data)]>
                          (cells_data st))
                 (task_queue st) (system_logs st) in
    (log_event now INFO ("Cell " +:+ selected_cell +:+ " reset") st1,
     Success "Cell reset successfully!")
  end.

(** The "Apply Changes" button of the manual parameter control. *)
Definition apply_changes (now : string) (selected_cell : string)
    (new_voltage new_current new_temp new_soc : Q)
    (st : SessionState) : SessionState * Feedback :=
  match cells_data st !! selected_cell with
  | None => (st, Raised "KeyError")
  | Some cell_data =>
    let cell :=
      set_soc new_soc (set_temp new_temp
        (set_current new_current (set_voltage new_voltage cell_data))) in
    let st1 := mkState (<[selected_cell := cell]> (cells_data st))
                 (task_queue st) (system_logs st) in
    (log_event now INFO ("Manual parameters applied to " +:+ selected_cell) st1,
     Rerun)
  end.

(** The options of the "Select Operation" select box. *)
Inductive Operation :=
  | Balance_All_Cells
  | Emergency_Stop_All
  | Reset_All_Temperatures
  | Set_All_Currents_to_Zero.

(** The "Execute Batch Operation" button: each branch loops over
    [cells_data.items()] and writes one key of every cell. *)
Definition execute_batch_operation (now : string) (operation : Operation)
    (st : SessionState) : SessionState * Feedback :=
  match operation with
  | Balance_All_Cells =>
    let st1 := mkState (set_current 1.0 <$> cells_data st)
                 (task_queue st) (system_logs st) in
    (log_event now INFO "Batch balancing operation started" st1,
     Success "All cells set to balancing mode!")
  | Emergency_Stop_All =>
    let st1 := mkState (set_current 0.0 <$> cells_data st)
                 (task_queue st) (system_logs st) in
    (log_event now WARNING "Emergency stop - all cells stopped" st1,
     Success "Emergency stop executed!")
  | Reset_All_Temperatures =>
    let st1 := mkState (set_temp 25.0 <$> cells_data st)
                 (task_queue st) (system_logs st) in
    (log_event now INFO "All cell temperatures reset to 25°C" st1,
     Success "All temperatures reset!")
  | Set_All_Currents_to_Zero =>
    let st1 := mkState (set_current 0.0 <$> cells_data st)
                 (task_queue st) (system_logs st) in
    (log_event now INFO "All cell currents set to zero" st1,
     Success "All currents set to zero!")
  end.

(** [cell_data.update({"current": 0.0, "voltage": 0.0})] *)
Definition shutdown_cell (c : Cell) : Cell :=
  set_voltage 0.0 (set_current 0.0 c).

(** The "EMERGENCY SHUTDOWN" button. *)
Definition emergency_shutdown (now : string) (st : SessionState)
    : SessionState * Feedback :=
  let st1 := mkState (shutdown_cell <$> cells_data st)
               (task_queue st) (system_logs st) in
  (log_event now CRITICAL "EMERGENCY SHUTDOWN ACTIVATED" st1,
   Error "Emergency shutdown activated!").

(** [needle in s] on strings. *)
Fixpoint contains (s needle : string) : bool :=
  String.prefix needle s ||
  match s with
  | "" => false
  | String _ s' => contains s' needle
  end.

(** The body of the loop of "SYSTEM RESTART". *)
Definition restart_cell (cell_id : string) (c : Cell) : Cell :=
  if contains cell_id "lfp"
  then set_temp 25.0 (set_current 0.0 (set_voltage 3.2 c))
  else set_temp 25.0 (set_current 0.0 (set_voltage 3.6 c)).

(** The "SYSTEM RESTART" button. *)
Definition system_restart (now : string) (st : SessionState)
    : SessionState * Feedback :=
  let st1 := mkState (map_imap (λ cell_id c, Some (restart_cell cell_id c))
                        (cells_data st))
               (task_queue st) (system_logs st) in
  (log_event now INFO "System restart completed" st1,
   Success "System restarted successfully!").

(** ** Task manager *)

(** The number inputs the "Create Task" tab shows; which of them exist
    depends on the task type, and the handler reads only those. *)
Record TaskWidgets := mkWidgets {
  target_voltage : Q;
  target_current : Q;
  max_capacity : Q;
  max_temp : Q;
  duration : Q;
  cutoff_voltage : Q;
  balance_threshold : Q;
  max_balance_current : Q
}.

(** "Add task-specific parameters" *)
Definition task_params (task_type : TaskType) (w : TaskWidgets) : TaskParams :=
  match task_type with
  | CC_CV | CC_CD =>
    ChargeParams (target_voltage w) (target_current w) (max_capacity w)
      (max_temp w) (duration w) (cutoff_voltage w)
  | IDLE => IdleParams (duration w)
  | BALANCE => BalanceParams (balance_threshold w) (max_balance_current w)
  end.

(** [f"task_{n}"] *)
Definition task_id (n : nat) : string := "task_" +:+ pretty n.

(** [sep.join(l)] *)
Definition join (sep : string) (l : list string) : string :=
  String.concat sep l.

(** The "Create Task" button.  [if target_cells:] is the test that the list
    is not empty. *)
Definition create_task (now : string) (task_type : TaskType)
    (target_cells : list string) (priority : Priority.t)
    (task_description : string) (w : TaskWidgets)
    (st : SessionState) : SessionState * Feedback :=
  match target_cells with
  | [] => (st, Error "Please select at least one target cell.")
  | _ =>
    let task :=
      Task.mk (task_id (length (task_queue st) + 1)) task_type target_cells
        priority Queued now task_description (task_params task_type w) in
    let st1 := mkState (cells_data st) (task_queue st ++ [task])
                 (system_logs st) in
    (log_event now INFO
       ("Task " +:+ Task.id task +:+ " created for cells: "
        +:+ join ", " target_cells) st1,
     Success ("Task " +:+ Task.id task +:+ " created successfully!"))
  end.

(** The "Start Next Task" button. *)
Definition start_next (now : string) (st : SessionState)
    : SessionState * Feedback :=
  match task_queue st with
  | [] => (st, Silent)
  | next_task :: rest =>
    let st1 := mkState (cells_data st)
                 (Task.set_status Running next_task :: rest)
                 (system_logs st) in
    (log_event now INFO ("Task " +:+ Task.id next_task +:+ " started") st1,
     Success ("Started task: " +:+ Task.id next_task))
  end.

(** The body of the loop of "Pause All Tasks". *)
Definition pause_if_running (task : Task.t) : Task.t :=
  match Task.status task with
  | Running => Task.set_status Paused task
  | _ => task
  end.

(** The "Pause All Tasks" button. *)
Definition pause_all_running (now : string) (st : SessionState)
    : SessionState * Feedback :=
  let st1 := mkState (cells_data st) (pause_if_running <$> task_queue st)
               (system_logs st) in
  (log_event now WARNING "All running tasks paused" st1,
   Info "All running tasks have been paused.").

(** [t["status"] != "Completed"] *)
Definition not_completed (task : Task.t) : bool :=
  match Task.status task with Completed => false | _ => true end.

(** The "Clear Completed" button. *)
Definition clear_completed (st : SessionState) : SessionState * Feedback :=
  (mkState (cells_data st) (List.filter not_completed (task_queue st))
     (system_logs st),
   Success "Completed tasks cleared.").

(** [next((t for t in task_queue if t["id"] == selected_task_id), None)]:
    the first task with that id, with its position.  The task found is the
    object stored in the list, so a write to it is a write at that
    position. *)
Definition select_task (selected_task_id : string) (queue : list Task.t)
    : option (nat * Task.t) :=
  list_find (λ t, Task.id t = selected_task_id) queue.

(** The "Start" button of the task details. *)
Definition start_task (selected_task_id : string) (st : SessionState)
    : SessionState * Feedback :=
  match select_task selected_task_id (task_queue st) with
  | None => (st, Silent)
  | Some (i, _) =>
    (mkState (cells_data st)
       (alter (Task.set_status Running) i (task_queue st))
       (system_logs st), Rerun)
  end.

(** The "Pause" button of the task details. *)
Definition pause_task (selected_task_id : string) (st : SessionState)
    : SessionState * Feedback :=
  match select_task selected_task_id (task_queue st) with
  | None => (st, Silent)
  | Some (i, _) =>
    (mkState (cells_data st)
       (alter (Task.set_status Paused) i (task_queue st))
       (system_logs st), Rerun)
  end.

(** [queue.remove(x)]: drops the first item equal to [x]; [None] stands for
    the [ValueError] of a list without such an item. *)
Fixpoint list_remove (x : Task.t) (queue : list Task.t)
    : option (list Task.t) :=
  match queue with
  | [] => None
  | y :: rest =>
    if Task.eqb y x then Some rest
    else (y ::.) <$> list_remove x rest
  end.

(** The "Cancel" button of the task details. *)
Definition cancel_task (now : string) (selected_task_id : string)
    (st : SessionState) : SessionState * Feedback :=
  match select_task selected_task_id (task_queue st) with
  | None => (st, Silent)
  | Some (_, selected_task) =>
    match list_remove selected_task (task_queue st) with
    | None => (st, Raised "ValueError")
    | Some queue =>
      let st1 := mkState (cells_data st) queue (system_logs st) in
      (log_event now WARNING ("Task " +:+ selected_task_id +:+ " cancelled") st1,
       Rerun)
    end
  end.

(** ** Sessions *)

(** The buttons that change the session state, with the values of their
    widgets. *)
Inductive Click :=
  | Load_Sample_Data
  | Add_Cell (cell_type : CellType) (cell_id : string)
      (voltage current temp capacity soc cycle_count : Q)
  | Remove (cell_id : string)
  | Upload (config : list (string * Cell))
  | Reset_Cell (selected_cell : string)
  | Apply_Changes (selected_cell : string)
      (new_voltage new_current new_temp new_soc : Q)
  | Execute_Batch_Operation (operation : Operation)
  | EMERGENCY_SHUTDOWN
  | SYSTEM_RESTART
  | Create_Task (task_type : TaskType) (target_cells : list string)
      (priority : Priority.t) (task_description : string) (w : TaskWidgets)
  | Start_Next_Task
  | Pause_All_Tasks
  | Clear_Completed
  | Start (selected_task_id : string)
  | Pause (selected_task_id : string)
  | Cancel (selected_task_id : string).

Definition click (now : string) (c : Click) (st : SessionState)
    : SessionState * Feedback :=
  match c with
  | Load_Sample_Data => generate_sample_data st
  | Add_Cell cell_type cell_id v i t cap s n =>
    add_cell now cell_type cell_id v i t cap s n st
  | Remove cell_id => remove_cell now cell_id st
  | Upload config => import_configuration config st
  | Reset_Cell selected_cell => reset_cell now selected_cell st
  | Apply_Changes selected_cell v i t s =>
    apply_changes now selected_cell v i t s st
  | Execute_Batch_Operation operation =>
    execute_batch_operation now operation st
  | EMERGENCY_SHUTDOWN => emergency_shutdown now st
  | SYSTEM_RESTART => system_restart now st
  | Create_Task task_type target_cells priority task_description w =>
    create_task now task_type target_cells priority task_description w st
  | Start_Next_Task => start_next now st
  | Pause_All_Tasks => pause_all_running now st
  | Clear_Completed => clear_completed st
  | Start selected_task_id => start_task selected_task_id st
  | Pause selected_task_id => pause_task selected_task_id st
  | Cancel selected_task_id => cancel_task now selected_task_id st
  end.

(** A session: clicks, each at its time, from a state. *)
Definition run (clicks : list (string * Click)) (st : SessionState)
    : SessionState :=
  foldl (λ st nc, (click nc.1 nc.2 st).1) st clicks.

(** ** The wording of the specification

    Definitions that follow the text of the specification, for comparison
    with the program. *)

(** The two conditions of the status rule, over the four values it reads. *)
Definition critical_condition (v t lo hi : Q) : Prop :=
  (v < lo \/ hi < v \/ 45 < t)%Q.

Definition warning_condition (v t lo : Q) : Prop :=
  (35 < t \/ v < lo + 0.1)%Q.

(** The same two conditions over binary64 values, [<] and [+] being those
    of the floats. *)
Definition critical_condition64 (v t lo hi : float) : Prop :=
  (v <? lo)%float = true \/ (hi <? v)%float = true \/ (45 <? t)%float = true.

Definition warning_condition64 (v t lo : float) : Prop :=
  (35 <? t)%float = true \/ (v <? lo + 0.1)%float = true.

(** The formulas of the health score, with the order and [Qmax] of the
    rationals. *)
Module ScoreSpec.

Definition clamp0 (x : Q) : Q := Qmax 0 x.

Definition voltage_score (v : Q) : Q :=
  if Qle_bool 3.0 v && Qle_bool v 4.0 then 100
  else clamp0 (100 - Qabs (v - 3.5) * 50).

Definition temperature_score (t : Q) : Q :=
  if Qle_bool t 35 then 100 else clamp0 (100 - (t - 35) * 5).

Definition cycle_score (n : Q) : Q := clamp0 (100 - (n / 1000) * 100).

Definition soc_score (s : Q) : Q :=
  if Qle_bool 20 s && Qle_bool s 80 then 100
  else clamp0 (100 - Qabs (s - 50) * 2).

Definition mean4 (a b c d : Q) : Q := (a + b + c + d) / 4.

End ScoreSpec.

(** The admission rule: among the tasks with status Queued the one of
    highest priority, the earliest created among equals; no such task is
    the error QueueEmpty. *)
Module SchedulerSpec.

Definition rank (p : Priority.t) : nat :=
  match p with
  | Priority.Low => 0
  | Priority.Medium => 1
  | Priority.High => 2
  | Priority.Critical => 3
  end.

(** The position and rank of the task to admit, in a queue whose first task
    has position [i]. *)
Fixpoint pick (i : nat) (queue : list Task.t) : option (nat * nat) :=
  match queue with
  | [] => None
  | t :: rest =>
    let later := pick (S i) rest in
    match Task.status t with
    | Queued =>
      match later with
      | Some (_, r) =>
        if (rank (Task.priority t) <? r)%nat then later
        else Some (i, rank (Task.priority t))
      | None => Some (i, rank (Task.priority t))
      end
    | _ => later
    end
  end.

Inductive Outcome := QueueEmpty | Started (queue : list Task.t).

Definition start_next (queue : list Task.t) : Outcome :=
  match pick 0 queue with
  | None => QueueEmpty
  | Some (i, _) => Started (alter (Task.set_status Running) i queue)
  end.

End SchedulerSpec.

(** No task of the queue is Completed. *)
Definition never_completed (queue : list Task.t) : Prop :=
  Forall (λ t, Task.status t <> Completed) queue.

(** ** Controls and the fields they write *)

(** The keys of a cell dict, and the value a cell holds under a key. *)
Inductive Field :=
  | F_voltage | F_current | F_temp | F_capacity | F_min_voltage
  | F_max_voltage | F_soc | F_cycle_count | F_type.

Definition read (f : Field) (c : Cell) : option (Q + string) :=
  match f with
  | F_voltage => inl <$> voltage c
  | F_current => inl <$> current c
  | F_temp => inl <$> temp c
  | F_capacity => inl <$> capacity c
  | F_min_voltage => inl <$> min_voltage c
  | F_max_voltage => inl <$> max_voltage c
  | F_soc => inl <$> soc c
  | F_cycle_count => inl <$> cycle_count c
  | F_type => inr <$> type c
  end.

(** The controls of the "Batch Operations" and "Emergency Controls" tabs. *)
Inductive Control :=
  | Batch (operation : Operation)
  | Shutdown
  | Restart.

Definition control (now : string) (ctl : Control) (st : SessionState)
    : SessionState * Feedback :=
  match ctl with
  | Batch operation => execute_batch_operation now operation st
  | Shutdown => emergency_shutdown now st
  | Restart => system_restart now st
  end.

(** The telemetry fields each control is meant to write, as the
    specification lists them. *)
Definition designated (ctl : Control) : list Field :=
  match ctl with
  | Batch Reset_All_Temperatures => [F_temp]
  | Batch _ => [F_current]
  | Shutdown => [F_current; F_voltage]
  | Restart => [F_voltage; F_current; F_temp]
  end.

(** What a control does to the cell registered under [cell_id]. *)
Definition control_cell (ctl : Control) (cell_id : string) (c : Cell) : Cell :=
  match ctl with
  | Batch Balance_All_Cells => set_current 1.0 c
  | Batch Emergency_Stop_All => set_current 0.0 c
  | Batch Reset_All_Temperatures => set_temp 25.0 c
  | Batch Set_All_Currents_to_Zero => set_current 0.0 c
  | Shutdown => shutdown_cell c
  | Restart => restart_cell cell_id c
  end.

(** ** Sample cells and sessions *)

(** The cell of the scenario: voltage 3.2 between 2.8 and 3.6, 28 degrees,
    state of charge 85. *)
Definition cell_A : Cell :=
  mkCell (Some 3.2%Q) (Some 2.5%Q) (Some 28%Q) (Some 8.0%Q) (Some 2.8%Q)
    (Some 3.6%Q) (Some 85%Q) (Some 150%Q) None.

(** A cell at the centre of every band of the health score. *)
Definition ideal_cell : Cell :=
  mkCell (Some 3.5%Q) None (Some 25%Q) None None None (Some 50%Q) (Some 0%Q)
    None.

(** The default values of the task inputs. *)
Definition default_widgets : TaskWidgets :=
  mkWidgets 3.6 1.0 10.0 45 60 2.8 10 0.5.

(** A session with the cell of the scenario and nothing else. *)
Definition one_cell : SessionState := mkState {[ "A" := cell_A ]} [] [].

(** A session with three cells. *)
Definition three_cells : SessionState :=
  mkState (<["B" := ideal_cell]> (<["C" := set_current 2 cell_A]>
             (cells_data one_cell))) [] [].

(** "Create Task" for an idle task on cell A. *)
Definition create_idle (p : Priority.t) (st : SessionState) : SessionState :=
  (create_task "t" IDLE ["A"] p "" default_widgets st).1.

(** Three tasks of priorities Low, Critical, Medium, created in that
    order. *)
Definition three_queued : SessionState :=
  create_idle Priority.Medium
    (create_idle Priority.Critical (create_idle Priority.Low one_cell)).

(** One task, created and then paused. *)
Definition one_paused : SessionState :=
  (pause_task "task_1" (create_idle Priority.Low one_cell)).1.

(** Two tasks are created, the first is cancelled, a third is created. *)
Definition cancel_then_create : SessionState :=
  create_idle Priority.Low
    (cancel_task "t" "task_1"
       (create_idle Priority.Low (create_idle Priority.Low one_cell))).1.

(** ** Read-only views of the pages *)

#[global] Instance CellStatus_eq_dec : EqDecision CellStatus.
Proof. solve_decision. Defined.

(** [cells_data.values()] *)
Definition values (cells : gmap string Cell) : list Cell :=
  (map_to_list cells).*2.

(** [sum(1 for x in l if p(x))] *)
Definition count {A : Type} (p : A -> bool) (l : list A) : nat :=
  sum_list ((λ _, 1%nat) <$> List.filter p l).

(** Python's [sum] of numbers: from 0, left to right. *)
Definition sum (l : list Q) : Q := foldl Qplus 0%Q l.

(** The four metrics at the top of the dashboard. *)
Definition total_cells (st : SessionState) : nat := size (cells_data st).

Definition good_cells (st : SessionState) : nat :=
  count (λ cell, bool_decide (get_cell_status cell = Good))
    (values (cells_data st)).

Definition warning_cells (st : SessionState) : nat :=
  count (λ cell, bool_decide (get_cell_status cell = Warning))
    (values (cells_data st)).

Definition critical_cells (st : SessionState) : nat :=
  count (λ cell, bool_decide (get_cell_status cell = Critical))
    (values (cells_data st)).

(** [l[-n:]]: the last [n] items, all of them when the list is shorter;
    [l[-0:]] is the whole list. *)
Definition slice_last {A : Type} (n : nat) (l : list A) : list A :=
  match n with
  | O => l
  | _ => drop (length l - n) l
  end.

(** "Recent System Logs" of the dashboard: [system_logs[-10:]]. *)
Definition recent_logs (st : SessionState) : list LogEntry.t :=
  slice_last 10 (system_logs st).

(** The log of a generated report: [system_logs[-50:]]. *)
Definition report_logs (st : SessionState) : list LogEntry.t :=
  slice_last 50 (system_logs st).

(** The "Quick Statistics" of the reports tab; the page shows them only for
    a registry that is not empty. *)
Definition total_capacity (st : SessionState) : Q :=
  sum (get_num capacity <$> values (cells_data st)).

Definition avg_soc (st : SessionState) : Q :=
  (sum (get_num soc <$> values (cells_data st))
   / inject_Z (Z.of_nat (size (cells_data st))))%Q.

Definition total_cycles (st : SessionState) : Q :=
  sum (get_num cycle_count <$> values (cells_data st)).

Definition active_tasks (st : SessionState) : nat :=
  count (λ task, bool_decide (Task.status task = Running)) (task_queue st).

(** ** Kinds of clicks *)

(** The buttons of the task manager page. *)
Definition is_task_click (c : Click) : bool :=
  match c with
  | Create_Task _ _ _ _ _ | Start_Next_Task | Pause_All_Tasks
  | Clear_Completed | Start _ | Pause _ | Cancel _ => true
  | _ => false
  end.

Definition is_cancel (c : Click) : bool :=
  match c with Cancel _ => true | _ => false end.

(** The ids "task_1", ..., "task_n". *)
Definition sequential_ids (n : nat) : list string := task_id <$> seq 1 n.

(** A string occurs in another. *)
Definition occurs_in (needle s : string) : Prop :=
  exists pre post : string, s = pre +:+ needle +:+ post.

(** The voltage bounds "Add Cell" gives to a chemistry. *)
Definition chemistry_bounds (cell_type : CellType) (c : Cell) : Prop :=
  min_voltage c = min_voltage (new_cell cell_type 0 0 0 0 0 0)
  /\ max_voltage c = max_voltage (new_cell cell_type 0 0 0 0 0 0).

(** A session of three tasks with starts and pauses between them. *)
Definition busy_session : list (string * Click) :=
  [("t1", Add_Cell lfp "A" 3.2 0 25 10 50 0);
   ("t2", Create_Task IDLE ["A"] Priority.Low "" default_widgets);
   ("t3", Create_Task CC_CV ["A"] Priority.High "" default_widgets);
   ("t4", Start_Next_Task);
   ("t5", Pause_All_Tasks);
   ("t6", Create_Task BALANCE ["A"] Priority.Medium "" default_widgets);
   ("t7", Start "task_2");
   ("t8", Clear_Completed)].

(** * Part II.  Properties *)

(** ** Comparisons and clamping *)

Section NumFacts.
Local Open Scope Q_scope.

Lemma lt_true (x y : Q) : Num.lt x y = true <-> x < y.
Proof.
  unfold Num.lt. rewrite negb_true_iff. split.
  - intros H. apply Qnot_le_lt. intros Hle.
    apply Qle_bool_iff in Hle. congruence.
  - intros H. destruct (Qle_bool y x) eqn:E; [|reflexivity].
    apply Qle_bool_iff in E. exfalso. exact (Qlt_not_le _ _ H E).
Qed.

Lemma gt_true (x y : Q) : Num.gt x y = true <-> y < x.
Proof. apply lt_true. Qed.

Lemma gt_false (x y : Q) : Num.gt x y = false <-> x <= y.
Proof. unfold Num.gt, Num.lt. rewrite negb_false_iff. apply Qle_bool_iff. Qed.

Lemma le_true (x y : Q) : Num.le x y = true <-> x <= y.
Proof. apply Qle_bool_iff. Qed.

Lemma max0_nonneg (x : Q) : 0 <= Num.max 0 x.
Proof.
  unfold Num.max. destruct (Num.gt x 0) eqn:E.
  - apply gt_true in E. apply Qlt_le_weak, E.
  - apply Qle_refl.
Qed.

Lemma max0_le (x b : Q) : 0 <= b -> x <= b -> Num.max 0 x <= b.
Proof. intros H0 Hx. unfold Num.max. destruct (Num.gt x 0); assumption. Qed.

(** Python's [max(0, x)] is the maximum of the rationals. *)
Lemma max0_Qmax (x : Q) : Num.max 0 x == Qmax 0 x.
Proof.
  unfold Num.max. destruct (Num.gt x 0) eqn:E.
  - apply gt_true in E. symmetry. apply Q.max_r, Qlt_le_weak, E.
  - apply gt_false in E. symmetry. apply Q.max_l, E.
Qed.

End NumFacts.

(** ** Status classification *)

Lemma critical_test (v t lo hi : Q) :
  Num.lt v lo || Num.gt v hi || Num.gt t 45 = true
  <-> critical_condition v t lo hi.
Proof.
  unfold critical_condition.
  rewrite !orb_true_iff, lt_true, !gt_true. tauto.
Qed.

Lemma warning_test (v t lo : Q) :
  Num.gt t 35 || Num.lt v (lo + 0.1) = true <-> warning_condition v t lo.
Proof.
  unfold warning_condition. rewrite orb_true_iff, lt_true, gt_true. tauto.
Qed.

(** The two tests of the binary64 rule are the two conditions. *)
Lemma critical_test64 (v t lo hi : float) :
  (v <? lo)%float || Binary64.gt v hi || Binary64.gt t 45 = true
  <-> critical_condition64 v t lo hi.
Proof.
  unfold critical_condition64, Binary64.gt. rewrite !orb_true_iff. tauto.
Qed.

Lemma warning_test64 (v t lo : float) :
  Binary64.gt t 35 || (v <? lo + 0.1)%float = true
  <-> warning_condition64 v t lo.
Proof.
  unfold warning_condition64, Binary64.gt. rewrite orb_true_iff. tauto.
Qed.

(** C5.  [get_cell_status], as the program computes it in binary64, is a
    function of the cell (total, also on NaN and infinities, one result per
    cell) that applies its rules in order.  With an absent key read as 0,
    the result is Critical exactly when voltage < min_voltage or
    voltage > max_voltage or temperature > 45; it is Warning exactly when
    that fails and temperature > 35 or voltage < min_voltage + 0.1; it is
    Good exactly when both fail; [<], [>] and [+] being those of the
    floats.  The result depends on no other field: two cells that read the
    same voltage, temperature and voltage bounds have the same status. *)
Theorem get_cell_status_binary64 (c : Binary64.Cell) :
  let v := default 0%float (Binary64.voltage c) in
  let t := default 0%float (Binary64.temp c) in
  let lo := default 0%float (Binary64.min_voltage c) in
  let hi := default 0%float (Binary64.max_voltage c) in
  (Binary64.get_cell_status c = Critical <-> critical_condition64 v t lo hi) /\
  (Binary64.get_cell_status c = Warning
   <-> ~ critical_condition64 v t lo hi /\ warning_condition64 v t lo) /\
  (Binary64.get_cell_status c = Good
   <-> ~ critical_condition64 v t lo hi /\ ~ warning_condition64 v t lo) /\
  (forall c' : Binary64.Cell,
      default 0%float (Binary64.voltage c') = v ->
      default 0%float (Binary64.temp c') = t ->
      default 0%float (Binary64.min_voltage c') = lo ->
      default 0%float (Binary64.max_voltage c') = hi ->
      Binary64.get_cell_status c' = Binary64.get_cell_status c).
Proof.
  cbv zeta.
  assert (forall x : Binary64.Cell,
            Binary64.get_cell_status x
            = if (default 0%float (Binary64.voltage x)
                  <? default 0%float (Binary64.min_voltage x))%float
                 || Binary64.gt (default 0%float (Binary64.voltage x))
                      (default 0%float (Binary64.max_voltage x))
                 || Binary64.gt (default 0%float (Binary64.temp x)) 45
              then Critical
              else if Binary64.gt (default 0%float (Binary64.temp x)) 35
                      || (default 0%float (Binary64.voltage x)
                          <? default 0%float (Binary64.min_voltage x) + 0.1)%float
              then Warning else Good) as Hdef by reflexivity.
  rewrite Hdef.
  pose proof (critical_test64 (default 0%float (Binary64.voltage c))
                (default 0%float (Binary64.temp c))
                (default 0%float (Binary64.min_voltage c))
                (default 0%float (Binary64.max_voltage c))) as Hc.
  pose proof (warning_test64 (default 0%float (Binary64.voltage c))
                (default 0%float (Binary64.temp c))
                (default 0%float (Binary64.min_voltage c))) as Hw.
  assert (Hft : false = true -> False) by discriminate.
  split; [|split; [|split]].
  - destruct (_ || _ || _); [tauto|].
    destruct (_ || _); split; (discriminate || tauto).
  - destruct (_ || _ || _); [split; (discriminate || tauto)|].
    destruct (_ || _); split; (discriminate || tauto).
  - destruct (_ || _ || _); [split; (discriminate || tauto)|].
    destruct (_ || _); split; (discriminate || tauto).
  - intros c' H1 H2 H3 H4. rewrite (Hdef c'), H1, H2, H3, H4. reflexivity.
Qed.

(** The rule on cells "Add Cell" can build.  An nmc cell at 3.3 V is
    Warning: 3.2 + 0.1 is 3.3000000000000003 in binary64, above the float
    3.3.  (Over exact rationals the same decimals give Good.) *)
Example nmc_at_lower_margin :
  Binary64.get_cell_status (Binary64.new_cell nmc 3.3 0 25 10 50 0) = Warning
  /\ (3.2 + 0.1)%float = 3.3000000000000003%float
  /\ get_cell_status (new_cell nmc 3.3 0 25 10 50 0) = Good.
Proof. repeat split. Qed.

(** The scenario of the sample cell in binary64, a cell without any key
    (every value reads 0, and 0 < 0 + 0.1), and a voltage that is not a
    number (no comparison holds). *)
Example status_binary64_samples :
  Binary64.get_cell_status (Binary64.new_cell lfp 3.2 2.5 28 8 85 150) = Good
  /\ Binary64.get_cell_status (Binary64.new_cell lfp 3.2 2.5 40 8 85 150)
     = Warning
  /\ Binary64.get_cell_status (Binary64.new_cell lfp 3.7 2.5 40 8 85 150)
     = Critical
  /\ Binary64.get_cell_status
       (Binary64.mkCell None None None None None None None None None)
     = Warning
  /\ Binary64.get_cell_status (Binary64.new_cell lfp nan 0 25 10 50 0) = Good.
Proof. repeat split. Qed.

(** The scenario of the sample cell over exact rationals: Good as
    registered, Warning at 40 degrees, Critical once the voltage passes the
    upper bound. *)
Example cell_A_good : get_cell_status cell_A = Good.
Proof. reflexivity. Qed.

Example cell_A_warm : get_cell_status (set_temp 40 cell_A) = Warning.
Proof. reflexivity. Qed.

Example cell_A_overvoltage :
  get_cell_status (set_voltage 3.7 (set_temp 40 cell_A)) = Critical.
Proof. reflexivity. Qed.

(** ** Health score *)

Section Scoring.
Local Open Scope Q_scope.

Lemma voltage_score_range (c : Cell) : 0 <= voltage_score c <= 100.
Proof.
  unfold voltage_score. cbv zeta.
  destruct (_ && _); [split; discriminate|].
  split; [apply max0_nonneg|].
  apply max0_le; [discriminate|].
  pose proof (Qabs_nonneg (get_num voltage c - 3.5)). unfold Num.abs. lra.
Qed.

Lemma temp_score_range (c : Cell) : 0 <= temp_score c <= 100.
Proof.
  unfold temp_score. cbv zeta.
  destruct (Num.le _ _) eqn:E; [split; discriminate|].
  split; [apply max0_nonneg|].
  apply max0_le; [discriminate|].
  assert (~ get_num temp c <= 35) as H
    by (intros H; apply le_true in H; congruence).
  apply Qnot_le_lt in H. lra.
Qed.

Lemma cycle_score_range (c : Cell) :
  0 <= get_num cycle_count c -> 0 <= cycle_score c <= 100.
Proof.
  intros H. unfold cycle_score. cbv zeta.
  split; [apply max0_nonneg|].
  apply max0_le; [discriminate|].
  assert (get_num cycle_count c / 1000
          == get_num cycle_count c * (1 # 1000)) as -> by reflexivity.
  lra.
Qed.

Lemma soc_score_range (c : Cell) : 0 <= soc_score c <= 100.
Proof.
  unfold soc_score. cbv zeta.
  destruct (_ && _); [split; discriminate|].
  split; [apply max0_nonneg|].
  apply max0_le; [discriminate|].
  pose proof (Qabs_nonneg (get_num soc c - 50)). unfold Num.abs. lra.
Qed.

(** The scores of the script are the formulas of the specification. *)
Lemma voltage_score_formula (c : Cell) :
  voltage_score c == ScoreSpec.voltage_score (get_num voltage c).
Proof.
  unfold voltage_score, ScoreSpec.voltage_score, ScoreSpec.clamp0, Num.le.
  cbv zeta. destruct (_ && _); [reflexivity | apply max0_Qmax].
Qed.

Lemma temp_score_formula (c : Cell) :
  temp_score c == ScoreSpec.temperature_score (get_num temp c).
Proof.
  unfold temp_score, ScoreSpec.temperature_score, ScoreSpec.clamp0, Num.le.
  cbv zeta. destruct (Qle_bool _ _); [reflexivity | apply max0_Qmax].
Qed.

Lemma cycle_score_formula (c : Cell) :
  cycle_score c == ScoreSpec.cycle_score (get_num cycle_count c).
Proof. apply max0_Qmax. Qed.

Lemma soc_score_formula (c : Cell) :
  soc_score c == ScoreSpec.soc_score (get_num soc c).
Proof.
  unfold soc_score, ScoreSpec.soc_score, ScoreSpec.clamp0, Num.le.
  cbv zeta. destruct (_ && _); [reflexivity | apply max0_Qmax].
Qed.

(** C6.  For a cell whose cycle count is not negative, each of the four
    sub-scores lies in [0,100] and is the formula of the specification,
    the overall score is their arithmetic mean and lies in [0,100]; a
    cell with voltage 3.5, temperature 25, cycle count 0 and state of
    charge 50 scores overall exactly 100. *)
Theorem score_range (c : Cell) :
  0 <= get_num cycle_count c ->
  let s := score c in
  (0 <= HealthScore.voltage s <= 100
   /\ HealthScore.voltage s == ScoreSpec.voltage_score (get_num voltage c)) /\
  (0 <= HealthScore.temperature s <= 100
   /\ HealthScore.temperature s
      == ScoreSpec.temperature_score (get_num temp c)) /\
  (0 <= HealthScore.cycles s <= 100
   /\ HealthScore.cycles s == ScoreSpec.cycle_score (get_num cycle_count c)) /\
  (0 <= HealthScore.soc s <= 100
   /\ HealthScore.soc s == ScoreSpec.soc_score (get_num soc c)) /\
  HealthScore.overall s
    == ScoreSpec.mean4 (HealthScore.voltage s) (HealthScore.temperature s)
         (HealthScore.cycles s) (HealthScore.soc s) /\
  0 <= HealthScore.overall s <= 100 /\
  (voltage c = Some 3.5 -> temp c = Some 25 ->
   cycle_count c = Some 0 -> soc c = Some 50 ->
   HealthScore.overall s == 100).
Proof.
  intros Hcycles. cbv zeta. simpl.
  pose proof (voltage_score_range c) as Hv.
  pose proof (temp_score_range c) as Ht.
  pose proof (cycle_score_range c Hcycles) as Hn.
  pose proof (soc_score_range c) as Hs.
  repeat match goal with |- _ /\ _ => split end;
    try tauto;
    auto using voltage_score_formula, temp_score_formula,
      cycle_score_formula, soc_score_formula.
  - reflexivity.
  - unfold overall_health.
    assert (forall x : Q, x / 4 == x * (1 # 4)) as -> by reflexivity. lra.
  - unfold overall_health.
    assert (forall x : Q, x / 4 == x * (1 # 4)) as -> by reflexivity. lra.
  - intros H1 H2 H3 H4.
    unfold overall_health, voltage_score, temp_score, cycle_score,
      soc_score, get_num.
    rewrite H1, H2, H3, H4. reflexivity.
Qed.

Lemma score_range_witness :
  0 <= get_num cycle_count ideal_cell
  /\ HealthScore.overall (score ideal_cell) == 100.
Proof.
  assert (0 <= get_num cycle_count ideal_cell) as H
    by (unfold Qle; simpl; lia).
  split; [exact H|].
  destruct (score_range ideal_cell H) as (_ & _ & _ & _ & _ & _ & Hideal).
  apply Hideal; reflexivity.
Defined.

(** The upper clamp is missing from [cycle_score]: a negative cycle count,
    which the "Cycle Count" input does not exclude, scores above 100. *)
Example cycle_score_negative_count :
  cycle_score (mkCell None None None None None None None (Some (-100)) None)
  == 110.
Proof. reflexivity. Qed.

(** The scores of the whole registry are the scores of its cells. *)
Lemma health_scores_lookup (cells : gmap string Cell) (cell_id : string) :
  health_scores cells !! cell_id = score <$> cells !! cell_id.
Proof. apply lookup_fmap. Qed.

End Scoring.

(** ** Start Next Task *)

(** The rule of the specification picks nothing exactly when no task is
    Queued. *)
Lemma pick_None (i0 : nat) (queue : list Task.t) :
  SchedulerSpec.pick i0 queue = None
  <-> Forall (λ t, Task.status t <> Queued) queue.
Proof.
  revert i0. induction queue as [|t rest IH]; intros i0; simpl.
  - split; [constructor | reflexivity].
  - rewrite Forall_cons, <- (IH (S i0)).
    destruct (Task.status t) eqn:Es;
      destruct (SchedulerSpec.pick (S i0) rest) as [[j r]|];
      try destruct (_ <? _)%nat; split; intros H;
      try discriminate; try reflexivity; try (split; done);
      destruct H as [H1 H2]; try done.
Qed.

(** What it picks is a Queued task of the highest priority among the
    Queued ones, and the first of that priority. *)
Lemma pick_Some (i0 : nat) (queue : list Task.t) (i r : nat) :
  SchedulerSpec.pick i0 queue = Some (i, r) ->
  exists t,
    (i0 <= i)%nat
    /\ queue !! (i - i0)%nat = Some t
    /\ Task.status t = Queued
    /\ SchedulerSpec.rank (Task.priority t) = r
    /\ forall (j : nat) (t' : Task.t),
         queue !! j = Some t' -> Task.status t' = Queued ->
         (SchedulerSpec.rank (Task.priority t') <= r)%nat
         /\ (SchedulerSpec.rank (Task.priority t') = r -> (i <= i0 + j)%nat).
Proof.
  revert i0 i r. induction queue as [|t rest IH]; intros i0 i r; simpl;
    [discriminate|].
  assert (Hlater :
    SchedulerSpec.pick (S i0) rest = Some (i, r) ->
    (forall t' : Task.t, t' = t -> Task.status t' = Queued ->
       (SchedulerSpec.rank (Task.priority t') < r)%nat) ->
    exists t0, (i0 <= i)%nat /\ (t :: rest) !! (i - i0)%nat = Some t0
      /\ Task.status t0 = Queued /\ SchedulerSpec.rank (Task.priority t0) = r
      /\ forall (j : nat) (t' : Task.t),
           (t :: rest) !! j = Some t' -> Task.status t' = Queued ->
           (SchedulerSpec.rank (Task.priority t') <= r)%nat
           /\ (SchedulerSpec.rank (Task.priority t') = r -> (i <= i0 + j)%nat)).
  { intros Hp Hhead. destruct (IH _ _ _ Hp) as (t0 & Hle & Hl & Hs & Hr & Hall).
    exists t0. split; [lia|]. split.
    { replace (i - i0)%nat with (S (i - S i0)) by lia. exact Hl. }
    split; [exact Hs|]. split; [exact Hr|].
    intros [|j] t' Hj Hq; simpl in Hj.
    - injection Hj as <-. specialize (Hhead t eq_refl Hq). lia.
    - destruct (Hall j t' Hj Hq) as [H1 H2]. split; [exact H1|].
      intros H. specialize (H2 H). lia. }
  assert (Hhere :
    Task.status t = Queued ->
    (forall (j : nat) (t' : Task.t), rest !! j = Some t' ->
       Task.status t' = Queued ->
       (SchedulerSpec.rank (Task.priority t')
        <= SchedulerSpec.rank (Task.priority t))%nat) ->
    exists t0, (i0 <= i0)%nat /\ (t :: rest) !! (i0 - i0)%nat = Some t0
      /\ Task.status t0 = Queued
      /\ SchedulerSpec.rank (Task.priority t0)
         = SchedulerSpec.rank (Task.priority t)
      /\ forall (j : nat) (t' : Task.t),
           (t :: rest) !! j = Some t' -> Task.status t' = Queued ->
           (SchedulerSpec.rank (Task.priority t')
            <= SchedulerSpec.rank (Task.priority t))%nat
           /\ (SchedulerSpec.rank (Task.priority t')
               = SchedulerSpec.rank (Task.priority t) -> (i0 <= i0 + j)%nat)).
  { intros Hq Hrest. exists t. split; [lia|].
    rewrite Nat.sub_diag. split; [reflexivity|].
    split; [exact Hq|]. split; [reflexivity|].
    intros [|j] t' Hj Hq'; simpl in Hj.
    - injection Hj as <-. split; lia.
    - split; [eapply Hrest; eassumption | lia]. }
  destruct (Task.status t) eqn:Es.
  - destruct (SchedulerSpec.pick (S i0) rest) as [[j r']|] eqn:Ep.
    + destruct (_ <? _)%nat eqn:Elt.
      * intros [= -> ->]. apply Hlater; [reflexivity|].
        intros t' -> _. apply Nat.ltb_lt, Elt.
      * intros [= <- <-]. apply Hhere; [reflexivity|].
        intros k t' Hk Hq.
        destruct (IH _ _ _ Ep) as (_ & _ & _ & _ & _ & Hall).
        destruct (Hall k t' Hk Hq) as [H1 _].
        apply Nat.ltb_ge in Elt. lia.
    + intros [= <- <-]. apply Hhere; [reflexivity|].
      intros k t' Hk Hq. apply pick_None in Ep.
      rewrite Forall_lookup in Ep. specialize (Ep k t' Hk). done.
  - intros Hp. apply (Hlater Hp). intros t' -> Hq. congruence.
  - intros Hp. apply (Hlater Hp). intros t' -> Hq. congruence.
  - intros Hp. apply (Hlater Hp). intros t' -> Hq. congruence.
Qed.

Example three_queued_tasks :
  (λ t, (Task.id t, Task.priority t, Task.status t)) <$> task_queue three_queued
  = [("task_1", Priority.Low, Queued);
     ("task_2", Priority.Critical, Queued);
     ("task_3", Priority.Medium, Queued)].
Proof. vm_compute. reflexivity. Qed.

(** On three Queued tasks of priorities Low, Critical, Medium the button
    starts the Low one, where the rule of the specification starts the
    Critical one; and on a queue whose only task is Paused the button
    starts that task, where the rule reports QueueEmpty. *)
Lemma start_next_ignores_priority :
  Task.status <$> task_queue (start_next "t" three_queued).1
    = [Running; Queued; Queued]
  /\ (exists queue,
        SchedulerSpec.start_next (task_queue three_queued)
          = SchedulerSpec.Started queue
        /\ Task.status <$> queue = [Queued; Running; Queued])
  /\ Task.status <$> task_queue one_paused = [Paused]
  /\ SchedulerSpec.start_next (task_queue one_paused) = SchedulerSpec.QueueEmpty
  /\ Task.status <$> task_queue (start_next "t" one_paused).1 = [Running].
Proof.
  split; [vm_compute; reflexivity|].
  split; [eexists; split; vm_compute; reflexivity|].
  vm_compute. repeat split.
Qed.

(** C1, as the code has it.  "Start Next Task" takes the first task of the
    queue, whatever its priority and status: that task becomes Running,
    every other task and every cell is left as it was, and one INFO entry
    is logged.  On an empty queue nothing changes and nothing is
    reported. *)
Theorem start_next_head (now : string) (st : SessionState) :
  let st' := (start_next now st).1 in
  cells_data st' = cells_data st
  /\ length (task_queue st') = length (task_queue st)
  /\ task_queue st' !! 0%nat
     = Task.set_status Running <$> task_queue st !! 0%nat
  /\ (forall i : nat, i <> 0%nat -> task_queue st' !! i = task_queue st !! i)
  /\ match task_queue st with
     | [] => start_next now st = (st, Silent)
     | next_task :: _ =>
       system_logs st'
       = (system_logs st
          ++ [LogEntry.mk now INFO ("Task " +:+ Task.id next_task +:+ " started")])%list
       /\ (start_next now st).2
          = Success ("Started task: " +:+ Task.id next_task)
     end.
Proof.
  unfold start_next. destruct (task_queue st) as [|t rest] eqn:E; simpl.
  - rewrite E. repeat split; reflexivity || done.
  - repeat split; try reflexivity.
    intros [|i] Hi; [done | reflexivity].
Qed.

(** Pressed three times, the button starts the first task three times:
    the Critical and the Medium task stay Queued. *)
Example start_next_thrice :
  Task.status
    <$> task_queue (run [("t", Start_Next_Task); ("t", Start_Next_Task);
                         ("t", Start_Next_Task)] three_queued)
  = [Running; Queued; Queued].
Proof. vm_compute. reflexivity. Qed.

(** The scenario of a High task created before a Low one: the first task
    of the queue is the High one, and it is the one started. *)
Example start_next_high_then_low :
  let st := create_idle Priority.Low
              (create_task "t" CC_CV ["A"] Priority.High "" default_widgets
                 one_cell).1 in
  (λ t, (Task.type t, Task.priority t, Task.status t))
    <$> task_queue (start_next "t" st).1
  = [(CC_CV, Priority.High, Running); (IDLE, Priority.Low, Queued)].
Proof. vm_compute. reflexivity. Qed.

(** The button and the rule of the specification agree when the first task
    of the queue is Queued and no Queued task has a higher priority. *)
Lemma start_next_agrees (now : string) (st : SessionState)
    (t : Task.t) (rest : list Task.t) :
  task_queue st = t :: rest ->
  Task.status t = Queued ->
  Forall (λ t', Task.status t' = Queued ->
                (SchedulerSpec.rank (Task.priority t')
                 <= SchedulerSpec.rank (Task.priority t))%nat) rest ->
  SchedulerSpec.start_next (task_queue st)
  = SchedulerSpec.Started (task_queue (start_next now st).1).
Proof.
  intros Hq Hs Hrest. unfold SchedulerSpec.start_next, start_next.
  rewrite Hq. simpl. rewrite Hs.
  destruct (SchedulerSpec.pick 1 rest) as [[j r]|] eqn:Ep; [|reflexivity].
  destruct (_ <? _)%nat eqn:Elt; [|reflexivity].
  apply Nat.ltb_lt in Elt.
  destruct (pick_Some _ _ _ _ Ep) as (t' & _ & Hl & Hs' & Hr & _).
  rewrite Forall_lookup in Hrest. specialize (Hrest _ _ Hl Hs'). lia.
Qed.

(** ** Add Cell *)

Section AddCell.
Local Open Scope Q_scope.

(** Adding a cell under the id of a registered one is accepted: the new
    cell replaces the old one and the log grows.  So is a negative
    capacity. *)
Lemma add_cell_overwrites :
  let '(st', shown) := add_cell "t" nmc "A" 3.6 0.0 25.0 (-1) 50 0 one_cell in
  cells_data one_cell !! "A" = Some cell_A
  /\ shown = Success "Cell A added successfully!"
  /\ cells_data st' !! "A" = Some (new_cell nmc 3.6 0.0 25.0 (-1) 50 0)
  /\ cells_data st' <> cells_data one_cell
  /\ system_logs st' <> system_logs one_cell
  /\ capacity (new_cell nmc 3.6 0.0 25.0 (-1) 50 0) = Some (-1).
Proof. simpl. repeat split; done. Qed.

(** The voltage bounds of a new cell come from its chemistry. *)
Lemma new_cell_bounds (cell_type : CellType) (v i t cap s n : Q) :
  get_num min_voltage (new_cell cell_type v i t cap s n)
  < get_num max_voltage (new_cell cell_type v i t cap s n).
Proof. destruct cell_type; reflexivity. Qed.

(** C2, as the code has it.  "Add Cell" refuses only the empty id, and
    then leaves registry, task queue and log as they were.  With any other
    id it stores the new cell under that id, replacing a cell already
    registered there, without looking at the attributes; the bounds it
    stores satisfy min_voltage < max_voltage; the task queue is unchanged
    and exactly one INFO entry is appended to the log. *)
Theorem add_cell_outcome (now : string) (cell_type : CellType)
    (cell_id : string) (v i t cap s n : Q) (st : SessionState) :
  let r := add_cell now cell_type cell_id v i t cap s n st in
  (cell_id = "" -> r = (st, Error "Please enter a valid Cell ID"))
  /\ (cell_id <> "" ->
      cells_data r.1
        = <[cell_id := new_cell cell_type v i t cap s n]> (cells_data st)
      /\ get_num min_voltage (new_cell cell_type v i t cap s n)
         < get_num max_voltage (new_cell cell_type v i t cap s n)
      /\ task_queue r.1 = task_queue st
      /\ system_logs r.1
         = (system_logs st
            ++ [LogEntry.mk now INFO
                  ("Cell " +:+ cell_id +:+ " added successfully")])%list
      /\ r.2 = Success ("Cell " +:+ cell_id +:+ " added successfully!")).
Proof.
  cbv zeta. split.
  - intros ->. reflexivity.
  - intros Hne. destruct cell_id as [|a cell_id]; [done|].
    unfold add_cell. cbn [fst snd log_event cells_data task_queue system_logs].
    repeat split. apply new_cell_bounds.
Qed.

End AddCell.

(** ** The buttons of the task details *)

Lemma params_eqb_refl (p : TaskParams) : Task.params_eqb p p = true.
Proof. destruct p; simpl; rewrite ?Qeq_bool_refl; reflexivity. Qed.

Lemma task_eqb_refl (t : Task.t) : Task.eqb t t = true.
Proof.
  unfold Task.eqb.
  rewrite !String.eqb_refl, !bool_decide_eq_true_2, params_eqb_refl; done.
Qed.

Lemma task_eqb_id (a b : Task.t) :
  Task.id a <> Task.id b -> Task.eqb a b = false.
Proof.
  intros H. unfold Task.eqb. apply String.eqb_neq in H. rewrite H. reflexivity.
Qed.

(** The selected task is the first of its id, so [remove] drops it at its
    own position and never raises. *)
Lemma list_remove_selected (sel : string) (queue : list Task.t)
    (i : nat) (t : Task.t) :
  select_task sel queue = Some (i, t) ->
  list_remove t queue = Some (delete i queue).
Proof.
  unfold select_task. revert i.
  induction queue as [|y rest IH]; intros i; simpl; [discriminate|].
  destruct (decide (Task.id y = sel)) as [Hy|Hy].
  - intros [= <- <-]. rewrite task_eqb_refl. reflexivity.
  - destruct (list_find _ rest) as [[j u]|] eqn:E; simpl; [|discriminate].
    intros [= <- <-].
    assert (Task.id u = sel) as Hu
      by (apply list_find_Some in E; tauto).
    rewrite task_eqb_id by congruence.
    rewrite (IH j eq_refl). reflexivity.
Qed.

Lemma alter_selected {A : Type} (f : A -> A) (l : list A) (i : nat) (x : A) :
  l !! i = Some x -> alter f i l = <[i := f x]> l.
Proof.
  revert i. induction l as [|y l IH]; intros [|i]; simpl; try discriminate.
  - intros [= ->]. reflexivity.
  - intros H. f_equal. apply IH, H.
Qed.

Lemma select_task_lookup (sel : string) (queue : list Task.t)
    (i : nat) (t : Task.t) :
  select_task sel queue = Some (i, t) ->
  queue !! i = Some t /\ Task.id t = sel.
Proof. intros H. apply list_find_Some in H. tauto. Qed.


(** The three buttons of the task details act on the selected task, the
    first of the queue with the selected id, without reading its status:
    "Start" sets it to Running, "Pause" sets it to Paused, "Cancel" removes
    it from the queue and appends one WARNING entry to the log.  None of
    them refuses or raises; the other tasks and the cells are left as they
    were. *)
Theorem task_buttons_unguarded (now sel : string) (st : SessionState)
    (i : nat) (t : Task.t) :
  select_task sel (task_queue st) = Some (i, t) ->
  start_task sel st
    = (mkState (cells_data st)
         (<[i := Task.set_status Running t]> (task_queue st))
         (system_logs st), Rerun)
  /\ pause_task sel st
     = (mkState (cells_data st)
          (<[i := Task.set_status Paused t]> (task_queue st))
          (system_logs st), Rerun)
  /\ cancel_task now sel st
     = (mkState (cells_data st) (delete i (task_queue st))
          (system_logs st
           ++ [LogEntry.mk now WARNING ("Task " +:+ sel +:+ " cancelled")]),
        Rerun).
Proof.
  intros Hsel. unfold start_task, pause_task, cancel_task.
  rewrite Hsel, (list_remove_selected _ _ _ _ Hsel).
  destruct (select_task_lookup _ _ _ _ Hsel) as [Hi _].
  rewrite !(alter_selected _ _ _ _ Hi). repeat split.
Qed.

Lemma task_buttons_unguarded_witness :
  (exists t, select_task "task_2" (task_queue three_queued) = Some (1%nat, t))
  /\ Task.status <$> task_queue (start_task "task_2" three_queued).1
     = [Queued; Running; Queued]
  /\ Task.id <$> task_queue (cancel_task "t" "task_2" three_queued).1
     = ["task_1"; "task_3"].
Proof.
  set (t := Task.mk "task_2" IDLE ["A"] Priority.Critical Queued "t" ""
              (IdleParams 60)).
  assert (select_task "task_2" (task_queue three_queued) = Some (1%nat, t))
    as Hsel by (vm_compute; reflexivity).
  destruct (task_buttons_unguarded "t" "task_2" three_queued 1 t Hsel)
    as (Hstart & _ & Hcancel).
  split; [exists t; exact Hsel|].
  rewrite Hstart, Hcancel. split; vm_compute; reflexivity.
Defined.

(** ** No handler writes Completed *)

Lemma list_remove_Forall (P : Task.t -> Prop) (x : Task.t)
    (queue queue' : list Task.t) :
  list_remove x queue = Some queue' -> Forall P queue -> Forall P queue'.
Proof.
  revert queue'. induction queue as [|y rest IH]; intros queue'; simpl;
    [discriminate|].
  intros H Hall. apply Forall_cons in Hall as [Hy Hrest].
  destruct (Task.eqb y x).
  - injection H as <-. exact Hrest.
  - destruct (list_remove x rest) as [r|]; simpl in H; [|discriminate].
    injection H as <-. constructor; [exact Hy | apply IH; done].
Qed.

Lemma filter_Forall (P : Task.t -> Prop) (f : Task.t -> bool)
    (queue : list Task.t) :
  Forall P queue -> Forall P (List.filter f queue).
Proof.
  induction 1 as [|t q Ht _ IH]; simpl; [constructor|].
  destruct (f t); [constructor|]; assumption.
Qed.

Lemma click_never_completed (now : string) (c : Click) (st : SessionState) :
  never_completed (task_queue st) ->
  never_completed (task_queue (click now c st).1).
Proof.
  unfold never_completed. intros H.
  destruct c as [| | | | | |[]| | | | | | | | |]; simpl; try exact H.
  - destruct cell_id; exact H.
  - unfold remove_cell. destruct (_ !! _); exact H.
  - unfold reset_cell. destruct (_ !! _); exact H.
  - unfold apply_changes. destruct (_ !! _); exact H.
  - unfold create_task. destruct target_cells; [exact H|]. simpl.
    apply Forall_app. split; [exact H|]. repeat constructor. done.
  - unfold start_next. destruct (task_queue st) as [|t q] eqn:E;
      simpl; [rewrite E; exact H|].
    apply Forall_cons in H as [_ H]. constructor; [done | exact H].
  - apply Forall_fmap. eapply Forall_impl; [exact H|].
    intros t Ht. simpl. unfold pause_if_running.
    destruct (Task.status t) eqn:E; simpl; congruence.
  - apply filter_Forall, H.
  - unfold start_task. destruct (select_task _ _) as [[i t]|]; [|exact H].
    simpl. apply Forall_alter; [exact H|]. done.
  - unfold pause_task. destruct (select_task _ _) as [[i t]|]; [|exact H].
    simpl. apply Forall_alter; [exact H|]. done.
  - unfold cancel_task. destruct (select_task _ _) as [[i t]|]; [|exact H].
    destruct (list_remove _ _) as [q|] eqn:E; [|exact H].
    simpl. eapply list_remove_Forall; eassumption.
Qed.

(** In every session from the initial state, no task of the queue is
    Completed: the status is written by "Create Task" (Queued), by "Start
    Next Task" and "Start" (Running), and by "Pause All Tasks" and "Pause"
    (Paused) only. *)
Lemma run_never_completed (clicks : list (string * Click)) :
  never_completed (task_queue (run clicks initial_state)).
Proof.
  unfold run.
  assert (forall st, never_completed (task_queue st) ->
            never_completed
              (task_queue (foldl (λ st nc, (click nc.1 nc.2 st).1) st clicks)))
    as Hgen.
  { induction clicks as [|[now c] clicks IH]; intros st H; simpl; [exact H|].
    apply IH, click_never_completed, H. }
  apply Hgen. constructor.
Qed.

(** So "Clear Completed" finds nothing to clear in any session. *)
Lemma clear_completed_noop (clicks : list (string * Click)) :
  task_queue (clear_completed (run clicks initial_state)).1
  = task_queue (run clicks initial_state).
Proof.
  pose proof (run_never_completed clicks) as H. simpl.
  induction H as [|t q Ht _ IH]; simpl; [reflexivity|].
  unfold not_completed at 1. destruct (Task.status t); try (f_equal; exact IH).
  done.
Qed.




(** ** Task ids *)

Lemma task_id_inj (n m : nat) : task_id n = task_id m -> n = m.
Proof.
  unfold task_id. intros H. simpl in H. injection H as H.
  exact (pretty_nat_inj _ _ H).
Qed.

(** The id of a new task is the length of the queue plus one. *)
Lemma create_task_id (now : string) (task_type : TaskType)
    (target_cells : list string) (priority : Priority.t)
    (task_description : string) (w : TaskWidgets) (st : SessionState) :
  target_cells <> [] ->
  exists task,
    task_queue (create_task now task_type target_cells priority
                  task_description w st).1
    = (task_queue st ++ [task])%list
    /\ Task.id task = task_id (length (task_queue st) + 1)
    /\ Task.status task = Queued.
Proof.
  intros H. destruct target_cells as [|c cs]; [done|].
  eexists. simpl. repeat split.
Qed.

(** C4 fails on the code.  After create, create, cancel of the first task
    and create again, the queue holds two tasks with the id "task_2": the
    number of the third task is the queue length plus one, which the
    removal has brought back to 2.  The selection by id then finds the
    older of the two only. *)
Theorem task_ids_repeat_after_cancel :
  Task.id <$> task_queue (create_idle Priority.Low
                            (create_idle Priority.Low one_cell))
  = ["task_1"; "task_2"]
  /\ Task.id <$> task_queue cancel_then_create = ["task_2"; "task_2"]
  /\ fst <$> select_task "task_2" (task_queue cancel_then_create)
     = Some 0%nat.
Proof. vm_compute. repeat split. Qed.

(** ** Pause All Tasks *)

Lemma pause_if_running_status (t : Task.t) :
  Task.status (pause_if_running t)
  = match Task.status t with Running => Paused | s => s end.
Proof. unfold pause_if_running. destruct (Task.status t) eqn:E; simpl; done. Qed.

Lemma pause_if_running_idem (t : Task.t) :
  pause_if_running (pause_if_running t) = pause_if_running t.
Proof.
  unfold pause_if_running at 1.
  rewrite pause_if_running_status. destruct (Task.status t); reflexivity.
Qed.

Lemma pause_if_running_id (t : Task.t) :
  Task.status t <> Running -> pause_if_running t = t.
Proof. unfold pause_if_running. destruct (Task.status t); done. Qed.

(** C8.  "Pause All Tasks" is idempotent on the task queue: pressed twice,
    it leaves the queue that pressing it once leaves.  After it no task is
    Running, every task that was Running is Paused and every other task is
    as it was; on a queue with no Running task it changes no task. *)
Theorem pause_all_running_idempotent (now now' : string) (st : SessionState) :
  let once := (pause_all_running now st).1 in
  let twice := (pause_all_running now' once).1 in
  task_queue twice = task_queue once
  /\ cells_data twice = cells_data st
  /\ length (task_queue once) = length (task_queue st)
  /\ (forall (i : nat) (t : Task.t),
        task_queue st !! i = Some t ->
        task_queue once !! i
        = Some (if decide (Task.status t = Running)
                then Task.set_status Paused t else t))
  /\ Forall (λ t, Task.status t <> Running) (task_queue once)
  /\ (Forall (λ t, Task.status t <> Running) (task_queue st) ->
      task_queue once = task_queue st).
Proof.
  cbv zeta. simpl. repeat split.
  - rewrite <- list_fmap_compose. apply list_fmap_ext.
    intros i t _. apply pause_if_running_idem.
  - apply length_fmap.
  - intros i t Hi. rewrite list_lookup_fmap, Hi. simpl. f_equal.
    unfold pause_if_running. destruct (Task.status t); reflexivity.
  - apply Forall_fmap, Forall_forall. intros t _. simpl.
    rewrite pause_if_running_status. destruct (Task.status t); done.
  - intros H. induction H as [|t q Ht _ IH]; simpl; [reflexivity|].
    rewrite pause_if_running_id by exact Ht. f_equal. exact IH.
Qed.

(** ** Export and import of the configuration *)

(** [update] with members of distinct keys stores all of them over the
    dict. *)
Lemma dict_update_union {V : Type} (config : list (string * V))
    (d : gmap string V) :
  NoDup config.*1 -> dict_update d config = list_to_map config ∪ d.
Proof.
  unfold dict_update. revert d.
  induction config as [|[k v] config IH]; intros d Hnd; simpl.
  - symmetry. apply (left_id_L ∅ (∪)).
  - apply NoDup_cons in Hnd as [Hk Hnd].
    rewrite (IH _ Hnd). rewrite <- insert_union_l.
    symmetry. apply insert_union_r.
    apply not_elem_of_list_to_map_1, Hk.
Qed.

(** C9.  The document exported from a registry, imported into an empty
    registry, gives back the registry: the same ids, each with the cell it
    had, field for field. *)
Theorem export_import_roundtrip (st : SessionState)
    (queue : list Task.t) (logs : list LogEntry.t) :
  let fresh := mkState ∅ queue logs in
  let st' := (import_configuration (export_configuration st) fresh).1 in
  cells_data st' = cells_data st
  /\ (forall cell_id : string,
        cells_data st' !! cell_id = cells_data st !! cell_id)
  /\ task_queue st' = queue
  /\ system_logs st' = logs.
Proof.
  cbv zeta. unfold import_configuration, export_configuration. simpl.
  assert (dict_update ∅ (map_to_list (cells_data st)) = cells_data st) as ->.
  { rewrite dict_update_union by apply NoDup_fst_map_to_list.
    rewrite (right_id_L ∅ (∪)). apply list_to_map_to_list. }
  repeat split.
Qed.

(** The round trip of the sample registry, member by member. *)
Example export_import_three_cells :
  cells_data (import_configuration (export_configuration three_cells)
                initial_state).1 !! "C"
  = Some (set_current 2 cell_A).
Proof. vm_compute. reflexivity. Qed.

(** ** Batch operations and emergency controls *)

Lemma control_lookup (now : string) (ctl : Control) (st : SessionState)
    (cell_id : string) :
  cells_data (control now ctl st).1 !! cell_id
  = control_cell ctl cell_id <$> cells_data st !! cell_id.
Proof.
  destruct ctl as [[]| |]; simpl; rewrite ?lookup_fmap; try reflexivity.
  rewrite map_lookup_imap. destruct (cells_data st !! cell_id); reflexivity.
Qed.

Lemma control_cell_frame (ctl : Control) (cell_id : string) (c : Cell)
    (f : Field) :
  f ∉ designated ctl -> read f (control_cell ctl cell_id c) = read f c.
Proof.
  intros Hf.
  destruct ctl as [[]| |]; simpl in *; unfold restart_cell;
    try destruct (contains cell_id "lfp");
    destruct f; first [reflexivity | exfalso; apply Hf; repeat constructor].
Qed.

(** The fields a control writes hold the values the script assigns. *)
Lemma control_cell_writes (cell_id : string) (c : Cell) :
  current (control_cell (Batch Balance_All_Cells) cell_id c) = Some 1.0%Q
  /\ current (control_cell (Batch Emergency_Stop_All) cell_id c) = Some 0.0%Q
  /\ temp (control_cell (Batch Reset_All_Temperatures) cell_id c) = Some 25.0%Q
  /\ current (control_cell (Batch Set_All_Currents_to_Zero) cell_id c)
     = Some 0.0%Q
  /\ (current (control_cell Shutdown cell_id c) = Some 0.0%Q
      /\ voltage (control_cell Shutdown cell_id c) = Some 0.0%Q)
  /\ (current (control_cell Restart cell_id c) = Some 0.0%Q
      /\ temp (control_cell Restart cell_id c) = Some 25.0%Q
      /\ voltage (control_cell Restart cell_id c)
         = Some (if contains cell_id "lfp" then 3.2%Q else 3.6%Q)).
Proof.
  simpl. unfold restart_cell.
  destruct (contains cell_id "lfp"); repeat split.
Qed.

Example contains_lfp :
  contains "cell_1_lfp" "lfp" = true /\ contains "cell_2_nmc" "lfp" = false
  /\ contains "lfp" "lfp" = true /\ contains "lf" "lfp" = false.
Proof. repeat split. Qed.

(** C10.  Every batch operation and both emergency controls leave the task
    queue and the set of registered ids as they were, and in every cell
    write only their designated fields: current for Balance, EmergencyStop
    and ZeroCurrent, temperature for ResetTemperature, current and voltage
    for shutdown, voltage, current and temperature for restart.  Capacity,
    state of charge, cycle count, the voltage bounds and the type of every
    cell are unchanged by all of them. *)
Theorem control_frame (now : string) (ctl : Control) (st : SessionState) :
  let st' := (control now ctl st).1 in
  task_queue st' = task_queue st
  /\ dom (cells_data st') = dom (cells_data st)
  /\ (forall (cell_id : string) (c : Cell),
        cells_data st !! cell_id = Some c ->
        exists c',
          cells_data st' !! cell_id = Some c'
          /\ (forall f : Field, f ∉ designated ctl -> read f c' = read f c)
          /\ capacity c' = capacity c
          /\ soc c' = soc c
          /\ cycle_count c' = cycle_count c
          /\ min_voltage c' = min_voltage c
          /\ max_voltage c' = max_voltage c
          /\ type c' = type c).
Proof.
  cbv zeta. split; [|split].
  - destruct ctl as [[]| |]; reflexivity.
  - apply set_eq. intros k. rewrite !elem_of_dom, control_lookup.
    apply fmap_is_Some.
  - intros cell_id c Hc. exists (control_cell ctl cell_id c).
    rewrite control_lookup, Hc. split; [reflexivity|].
    split; [intros f; apply control_cell_frame|].
    destruct ctl as [[]| |]; simpl; unfold restart_cell;
      try destruct (contains cell_id "lfp"); repeat split.
Qed.

(** ** Emergency Stop All *)

(** What the button reports is a fixed message: it is the same for a
    registry of one cell and for a registry of three, so no count of the
    cells written can be read from it. *)
Lemma emergency_stop_reports_no_count :
  size (cells_data one_cell) = 1%nat
  /\ size (cells_data three_cells) = 3%nat
  /\ (execute_batch_operation "t" Emergency_Stop_All one_cell).2
     = Success "Emergency stop executed!"
  /\ (execute_batch_operation "t" Emergency_Stop_All three_cells).2
     = Success "Emergency stop executed!"
  /\ ~ (exists count_affected : Feedback -> nat,
          forall st : SessionState,
            count_affected (execute_batch_operation "t" Emergency_Stop_All st).2
            = size (cells_data st)).
Proof.
  assert (size (cells_data one_cell) = 1%nat) as H1 by (vm_compute; reflexivity).
  assert (size (cells_data three_cells) = 3%nat) as H3
    by (vm_compute; reflexivity).
  repeat split; try assumption.
  intros [count_affected H].
  pose proof (H one_cell) as E1. pose proof (H three_cells) as E3.
  rewrite H1 in E1. rewrite H3 in E3.
  assert (1 = 3)%nat as E by (etransitivity; [symmetry; exact E1 | exact E3]).
  discriminate E.
Qed.

(** C7, as the code has it.  "Emergency Stop All" sets the current of every
    registered cell to 0.0, keeps the number of cells, and appends exactly
    one log entry, of severity WARNING; what it reports is the fixed
    message "Emergency stop executed!", no count.  Each of the other three
    batch operations appends exactly one entry, of severity INFO. *)
Theorem emergency_stop_all_cells (now : string) (st : SessionState) :
  let r := execute_batch_operation now Emergency_Stop_All st in
  (forall cell_id : string,
      cells_data r.1 !! cell_id
      = set_current 0.0 <$> cells_data st !! cell_id)
  /\ (forall (cell_id : string) (c' : Cell),
        cells_data r.1 !! cell_id = Some c' -> current c' = Some 0.0%Q)
  /\ size (cells_data r.1) = size (cells_data st)
  /\ system_logs r.1
     = (system_logs st
        ++ [LogEntry.mk now WARNING "Emergency stop - all cells stopped"])%list
  /\ r.2 = Success "Emergency stop executed!"
  /\ (forall operation : Operation,
        operation <> Emergency_Stop_All ->
        exists message : string,
          system_logs (execute_batch_operation now operation st).1
          = (system_logs st ++ [LogEntry.mk now INFO message])%list).
Proof.
  cbv zeta. simpl. repeat split.
  - intros cell_id. apply lookup_fmap.
  - intros cell_id c'. rewrite lookup_fmap.
    destruct (cells_data st !! cell_id); simpl; [|discriminate].
    intros [= <-]. reflexivity.
  - apply map_size_fmap.
  - intros [] Hop; try done; eexists; reflexivity.
Qed.

(** The three cells of the scenario, stopped. *)
Example emergency_stop_three_cells :
  let st' := (execute_batch_operation "t" Emergency_Stop_All three_cells).1 in
  current <$> cells_data three_cells !! "C" = Some (Some 2%Q)
  /\ current <$> cells_data st' !! "A" = Some (Some 0.0%Q)
  /\ current <$> cells_data st' !! "B" = Some (Some 0.0%Q)
  /\ current <$> cells_data st' !! "C" = Some (Some 0.0%Q)
  /\ LogEntry.type <$> system_logs st' = [WARNING].
Proof. vm_compute. repeat split. Qed.

(** * Part III.  Further properties of the pages *)

(** ** Dashboard metrics *)

Lemma count_cons {A : Type} (p : A -> bool) (x : A) (l : list A) :
  count p (x :: l) = ((if p x then 1 else 0) + count p l)%nat.
Proof. unfold count. simpl. destruct (p x); reflexivity. Qed.

Lemma count_le_length {A : Type} (p : A -> bool) (l : list A) :
  (count p l <= length l)%nat.
Proof.
  induction l as [|x l IH]; [reflexivity|].
  rewrite count_cons. simpl. destruct (p x); lia.
Qed.

Lemma count_zero {A : Type} (p : A -> bool) (l : list A) :
  count p l = 0%nat <-> Forall (λ x, p x = false) l.
Proof.
  induction l as [|x l IH]; [split; [constructor | reflexivity]|].
  rewrite count_cons, Forall_cons, <- IH. destruct (p x); split.
  - discriminate.
  - intros [H _]. discriminate H.
  - intros H. split; [reflexivity | exact H].
  - intros [_ H]. exact H.
Qed.

(** X1.  The three counters of the dashboard partition the registry:
    healthy, warning and critical cells add up to the total, whatever the
    cells hold. *)
Theorem dashboard_counts_partition (st : SessionState) :
  (good_cells st + warning_cells st + critical_cells st)%nat = total_cells st.
Proof.
  unfold good_cells, warning_cells, critical_cells, total_cells.
  rewrite <- length_map_to_list. unfold values.
  rewrite <- (length_fmap snd (map_to_list (cells_data st))).
  induction ((map_to_list (cells_data st)).*2) as [|c l IH]; [reflexivity|].
  rewrite !count_cons. simpl length.
  destruct (get_cell_status c); simpl; lia.
Qed.

(** ** The log *)

Lemma slice_last_suffix {A : Type} (n : nat) (l : list A) :
  exists older, l = (older ++ slice_last n l)%list.
Proof.
  destruct n as [|n]; simpl.
  - exists []. reflexivity.
  - exists (take (length l - S n) l). symmetry. apply take_drop.
Qed.

Lemma slice_last_length {A : Type} (n : nat) (l : list A) :
  n <> 0%nat -> length (slice_last n l) = Nat.min n (length l).
Proof.
  destruct n as [|n]; [done|]. intros _. simpl slice_last.
  rewrite length_drop. lia.
Qed.

Lemma slice_last_snoc {A : Type} (n : nat) (l : list A) (x : A) :
  last (slice_last n (l ++ [x])%list) = Some x.
Proof.
  destruct n as [|n]; simpl slice_last; [apply last_snoc|].
  rewrite length_app. simpl.
  replace (length l + 1 - S n)%nat with (length l - n)%nat by lia.
  rewrite drop_app_le by lia. apply last_snoc.
Qed.

(** X2.  The views of the log, [system_logs[-10:]] on the dashboard and
    [system_logs[-50:]] in a report, are the newest entries in the order of
    the log: a suffix of the log of length min(10, len), respectively
    min(50, len), whose last entry is the entry logged last. *)
Theorem recent_logs_newest (st : SessionState) :
  (exists older, system_logs st = (older ++ recent_logs st)%list)
  /\ length (recent_logs st) = Nat.min 10 (length (system_logs st))
  /\ (exists older, system_logs st = (older ++ report_logs st)%list)
  /\ length (report_logs st) = Nat.min 50 (length (system_logs st))
  /\ (forall (now : string) (event_type : Severity) (message : string),
        last (recent_logs (log_event now event_type message st))
        = Some (LogEntry.mk now event_type message)
        /\ last (report_logs (log_event now event_type message st))
           = Some (LogEntry.mk now event_type message)).
Proof.
  unfold recent_logs, report_logs. repeat split.
  - apply slice_last_suffix.
  - apply slice_last_length. done.
  - apply slice_last_suffix.
  - apply slice_last_length. done.
  - apply slice_last_snoc.
  - apply slice_last_snoc.
Qed.

Lemma click_log_append (now : string) (c : Click) (st : SessionState) :
  exists suffix,
    system_logs (click now c st).1 = (system_logs st ++ suffix)%list
    /\ (length suffix <= 1)%nat.
Proof.
  assert (forall l : list LogEntry.t, exists suffix,
            l = (l ++ suffix)%list /\ (length suffix <= 1)%nat) as Hsame.
  { intros l. exists []. rewrite app_nil_r. split; [reflexivity | simpl; lia]. }
  assert (forall (l : list LogEntry.t) e, exists suffix,
            (l ++ [e])%list = (l ++ suffix)%list /\ (length suffix <= 1)%nat) as Hone.
  { intros l e. exists [e]. split; [reflexivity | simpl; lia]. }
  destruct c as [| | | | | |[]| | | | | | | | |]; simpl;
    try apply Hsame; try apply Hone.
  - destruct cell_id; [apply Hsame | apply Hone].
  - unfold remove_cell. destruct (_ !! _); [apply Hone | apply Hsame].
  - unfold reset_cell. destruct (_ !! _); [apply Hone | apply Hsame].
  - unfold apply_changes. destruct (_ !! _); [apply Hone | apply Hsame].
  - unfold create_task. destruct target_cells; [apply Hsame | apply Hone].
  - unfold start_next. destruct (task_queue st); [apply Hsame | apply Hone].
  - unfold start_task. destruct (select_task _ _) as [[i t]|]; apply Hsame.
  - unfold pause_task. destruct (select_task _ _) as [[i t]|]; apply Hsame.
  - unfold cancel_task. destruct (select_task _ _) as [[i t]|]; [|apply Hsame].
    destruct (list_remove _ _); [apply Hone | apply Hsame].
Qed.

(** X3.  The log is append-only: in every session, from every state, the
    log at the start is a prefix of the log at the end, and each click adds
    at most one entry.  No click removes or rewrites an entry. *)
Theorem run_log_append_only (clicks : list (string * Click))
    (st : SessionState) :
  exists suffix,
    system_logs (run clicks st) = (system_logs st ++ suffix)%list
    /\ (length suffix <= length clicks)%nat.
Proof.
  unfold run. revert st.
  induction clicks as [|[now c] clicks IH]; intros st; simpl.
  - exists []. rewrite app_nil_r. split; [reflexivity | simpl; lia].
  - destruct (IH (click now c st).1) as (s2 & H2 & L2).
    destruct (click_log_append now c st) as (s1 & H1 & L1).
    exists (s1 ++ s2)%list. rewrite H2, H1, <- app_assoc.
    split; [reflexivity|]. rewrite length_app. lia.
Qed.

(** ** Task ids in sessions without a cancel *)

Lemma sequential_ids_S (n : nat) :
  sequential_ids (S n) = (sequential_ids n ++ [task_id (S n)])%list.
Proof. unfold sequential_ids. rewrite seq_S, fmap_app. reflexivity. Qed.

Lemma filter_never_completed (queue : list Task.t) :
  never_completed queue -> List.filter not_completed queue = queue.
Proof.
  induction 1 as [|t q Ht _ IH]; simpl; [reflexivity|].
  unfold not_completed at 1. destruct (Task.status t); try (f_equal; exact IH).
  done.
Qed.

Lemma alter_status_ids (s : Status) (i : nat) (queue : list Task.t) :
  Task.id <$> alter (Task.set_status s) i queue = Task.id <$> queue.
Proof.
  revert i. induction queue as [|t q IH]; intros [|i]; simpl; try reflexivity.
  f_equal. apply IH.
Qed.

Lemma click_ids_sequential (now : string) (c : Click) (st : SessionState) :
  is_cancel c = false ->
  never_completed (task_queue st) ->
  Task.id <$> task_queue st = sequential_ids (length (task_queue st)) ->
  Task.id <$> task_queue (click now c st).1
  = sequential_ids (length (task_queue (click now c st).1)).
Proof.
  intros Hc Hnc H.
  destruct c as [| | | | | |[]| | | | | | | | |]; simpl; try exact H;
    try discriminate Hc.
  - destruct cell_id; exact H.
  - unfold remove_cell. destruct (_ !! _); exact H.
  - unfold reset_cell. destruct (_ !! _); exact H.
  - unfold apply_changes. destruct (_ !! _); exact H.
  - unfold create_task. destruct target_cells; [exact H|]. simpl.
    rewrite fmap_app, length_app, H. simpl.
    rewrite Nat.add_1_r, sequential_ids_S. reflexivity.
  - unfold start_next. destruct (task_queue st) as [|t q] eqn:E;
      simpl; [rewrite E; exact H|]. exact H.
  - rewrite length_fmap, <- H, <- list_fmap_compose.
    apply list_fmap_ext. intros i t _. simpl. unfold pause_if_running.
    destruct (Task.status t); reflexivity.
  - rewrite filter_never_completed by exact Hnc. exact H.
  - unfold start_task. destruct (select_task _ _) as [[i t]|]; [|exact H].
    simpl. rewrite alter_status_ids, length_alter. exact H.
  - unfold pause_task. destruct (select_task _ _) as [[i t]|]; [|exact H].
    simpl. rewrite alter_status_ids, length_alter. exact H.
Qed.

Lemma sequential_ids_NoDup (n : nat) : NoDup (sequential_ids n).
Proof.
  unfold sequential_ids. apply NoDup_fmap_2; [|apply NoDup_seq].
  intros a b. apply task_id_inj.
Qed.

(** X4.  In a session from the initial state in which "Cancel" is never
    pressed, the ids of the queue are "task_1", ..., "task_n" in the order
    of creation, so no two tasks share an id: numbering by the length of
    the queue goes wrong only through removals. *)
Theorem ids_sequential_without_cancel (clicks : list (string * Click)) :
  Forall (λ nc, is_cancel nc.2 = false) clicks ->
  let queue := task_queue (run clicks initial_state) in
  Task.id <$> queue = sequential_ids (length queue)
  /\ NoDup (Task.id <$> queue).
Proof.
  intros Hclicks. cbv zeta.
  assert (forall st,
            never_completed (task_queue st) ->
            Task.id <$> task_queue st = sequential_ids (length (task_queue st)) ->
            Task.id <$> task_queue (run clicks st)
            = sequential_ids (length (task_queue (run clicks st)))) as Hgen.
  { unfold run. induction Hclicks as [|[now c] clicks Hc _ IH];
      intros st Hnc H; simpl; [exact H|].
    apply IH.
    - apply click_never_completed, Hnc.
    - apply click_ids_sequential; assumption. }
  assert (Task.id <$> task_queue (run clicks initial_state)
          = sequential_ids (length (task_queue (run clicks initial_state))))
    as H by (apply Hgen; [constructor | reflexivity]).
  split; [exact H|]. rewrite H. apply sequential_ids_NoDup.
Qed.

Lemma ids_sequential_without_cancel_witness :
  Forall (λ nc : string * Click, is_cancel nc.2 = false) busy_session
  /\ Task.id <$> task_queue (run busy_session initial_state)
     = sequential_ids (length (task_queue (run busy_session initial_state)))
  /\ NoDup (Task.id <$> task_queue (run busy_session initial_state)).
Proof.
  assert (Forall (λ nc : string * Click, is_cancel nc.2 = false) busy_session)
    as H by (repeat constructor).
  split; [exact H|]. exact (ids_sequential_without_cancel busy_session H).
Defined.

(** ** The pages keep to their half of the state *)

(** X5.  The buttons of the task manager never change the registry, and
    every other button never changes the task queue: in particular removing
    a cell leaves the tasks that target it in the queue, and creating a
    task for a cell does not touch the cell. *)
Theorem click_page_frame (now : string) (c : Click) (st : SessionState) :
  (is_task_click c = true -> cells_data (click now c st).1 = cells_data st)
  /\ (is_task_click c = false -> task_queue (click now c st).1 = task_queue st).
Proof.
  split; intros Hc;
    destruct c as [| | | | | |[]| | | | | | | | |]; simpl;
    try discriminate Hc; try reflexivity.
  - unfold create_task. destruct target_cells; reflexivity.
  - unfold start_next. destruct (task_queue st); reflexivity.
  - unfold start_task. destruct (select_task _ _) as [[i t]|]; reflexivity.
  - unfold pause_task. destruct (select_task _ _) as [[i t]|]; reflexivity.
  - unfold cancel_task. destruct (select_task _ _) as [[i t]|]; [|reflexivity].
    destruct (list_remove _ _); reflexivity.
  - destruct cell_id; reflexivity.
  - unfold remove_cell. destruct (_ !! _); reflexivity.
  - unfold reset_cell. destruct (_ !! _); reflexivity.
  - unfold apply_changes. destruct (_ !! _); reflexivity.
Qed.

(** ** Clear Completed *)

Lemma filter_sublist {A : Type} (f : A -> bool) (l : list A) :
  List.filter f l `sublist_of` l.
Proof.
  induction l as [|x l IH]; simpl; [constructor|].
  destruct (f x); [apply sublist_skip | apply sublist_cons]; exact IH.
Qed.

Lemma filter_not_completed (queue : list Task.t) :
  List.filter not_completed queue
  = filter (λ t, Task.status t <> Completed) queue.
Proof.
  induction queue as [|t q IH]; [reflexivity|].
  rewrite filter_cons. simpl. rewrite IH. unfold not_completed.
  destruct (Task.status t); destruct (decide _) as [H|H];
    try reflexivity; try (exfalso; apply H; discriminate).
  exfalso. apply H. reflexivity.
Qed.

(** X6.  "Clear Completed" removes exactly the tasks whose status is
    Completed, from any queue: the queue left is the old queue without its
    Completed tasks, every other task kept at its place in the order and
    with its multiplicity, so the queue shrinks by the number of Completed
    tasks.  Pressing it again changes nothing; it changes no cell and,
    unlike the other queue buttons, writes no log entry. *)
Theorem clear_completed_exact (st : SessionState) :
  let st' := (clear_completed st).1 in
  task_queue st' = filter (λ t, Task.status t <> Completed) (task_queue st)
  /\ (length (task_queue st')
      + count (λ t, bool_decide (Task.status t = Completed)) (task_queue st)
      = length (task_queue st))%nat
  /\ task_queue st' `sublist_of` task_queue st
  /\ (forall t : Task.t,
        t ∈ task_queue st'
        <-> t ∈ task_queue st /\ Task.status t <> Completed)
  /\ task_queue (clear_completed st').1 = task_queue st'
  /\ cells_data st' = cells_data st
  /\ system_logs st' = system_logs st.
Proof.
  cbv zeta. simpl. split; [apply filter_not_completed|].
  split.
  { induction (task_queue st) as [|t q IH]; [reflexivity|].
    rewrite count_cons. simpl. unfold not_completed at 1.
    destruct (Task.status t); simpl; lia. }
  split; [apply filter_sublist|].
  split; [|split; [|split; reflexivity]].
  - intros t. rewrite !list_elem_of_In, filter_In, <- !list_elem_of_In.
    unfold not_completed. destruct (Task.status t); split; intros [H1 H2];
      (split; [exact H1|]); try done.
  - induction (task_queue st) as [|t q IH]; simpl; [reflexivity|].
    destruct (not_completed t) eqn:E; simpl; [|exact IH].
    rewrite E. f_equal. exact IH.
Qed.

(** A queue with two equal tasks and a Completed one between them: both
    equal tasks stay. *)
Example clear_completed_keeps_duplicates (t : Task.t) :
  Task.status t = Queued ->
  task_queue (clear_completed
                (mkState ∅ [t; Task.set_status Completed t; t] [])).1
  = [t; t].
Proof.
  intros H. simpl. unfold not_completed. simpl. rewrite H. reflexivity.
Qed.

(** ** Start Next Task and the count of active tasks *)

Lemma no_active_after_pause (queue : list Task.t) :
  count (λ task, bool_decide (Task.status task = Running))
    (pause_if_running <$> queue) = 0%nat.
Proof.
  apply count_zero, Forall_fmap, Forall_forall. intros u _. simpl.
  apply bool_decide_eq_false_2. rewrite pause_if_running_status.
  destruct (Task.status u); done.
Qed.

(** X7.  "Start Next Task" is idempotent on the queue (pressed again it
    finds the first task Running and leaves it so), raises the number of
    active tasks by at most one, and on a queue that is not empty leaves
    at least one task active; after "Pause All Tasks" no task is active. *)
Theorem start_next_active_tasks (now now' : string) (st : SessionState) :
  let once := (start_next now st).1 in
  task_queue (start_next now' once).1 = task_queue once
  /\ (active_tasks st <= active_tasks once <= active_tasks st + 1)%nat
  /\ (task_queue st <> [] -> (1 <= active_tasks once)%nat)
  /\ active_tasks (pause_all_running now st).1 = 0%nat.
Proof.
  cbv zeta. unfold start_next, active_tasks.
  destruct st as [cells [|t q] logs]; simpl.
  - split; [reflexivity|]. unfold count. simpl.
    split; [lia|]. split; [done|]. reflexivity.
  - split; [reflexivity|]. split; [|split].
    + rewrite !count_cons. simpl.
      destruct (bool_decide (Task.status t = Running)); lia.
    + intros _. rewrite count_cons. simpl. lia.
    + apply (no_active_after_pause (t :: q)).
Qed.

(** ** Adding and removing cells *)

(** X8.  Removing a cell after adding it under a non-empty id leaves the
    registry without that id: the registry is back as it was when the id
    was free, but a cell that was registered under the id before is lost,
    "Add Cell" having replaced it.  The queue is untouched and the log
    holds one INFO and one WARNING entry more. *)
Theorem add_then_remove (now now' : string) (cell_type : CellType)
    (cell_id : string) (v i t cap s n : Q) (st : SessionState) :
  cell_id <> "" ->
  let added := (add_cell now cell_type cell_id v i t cap s n st).1 in
  let st' := (remove_cell now' cell_id added).1 in
  cells_data st' = delete cell_id (cells_data st)
  /\ (cells_data st !! cell_id = None -> cells_data st' = cells_data st)
  /\ task_queue st' = task_queue st
  /\ system_logs st'
     = (system_logs st
        ++ [LogEntry.mk now INFO ("Cell " +:+ cell_id +:+ " added successfully");
            LogEntry.mk now' WARNING ("Cell " +:+ cell_id +:+ " removed")])%list.
Proof.
  intros Hne. cbv zeta.
  destruct cell_id as [|a cell_id]; [done|].
  unfold add_cell, remove_cell.
  cbn [fst snd log_event cells_data task_queue system_logs].
  rewrite lookup_insert_eq.
  cbn [fst snd log_event cells_data task_queue system_logs].
  rewrite delete_insert_eq. repeat split.
  - intros Hfree. apply delete_id, Hfree.
  - rewrite <- app_assoc. reflexivity.
Qed.

Lemma add_then_remove_witness :
  cells_data (remove_cell "t2" "B"
                (add_cell "t1" nmc "B" 3.6 0 25 10 50 0 one_cell).1).1
  = cells_data one_cell.
Proof.
  assert ("B" <> "") as Hne by discriminate.
  destruct (add_then_remove "t1" "t2" nmc "B" 3.6 0 25 10 50 0 one_cell Hne)
    as (_ & Hfree & _).
  apply Hfree. reflexivity.
Defined.

(** ** Import of a configuration *)

Lemma dict_update_snoc {V : Type} (d : gmap string V)
    (config : list (string * V)) (k : string) (v : V) :
  dict_update d (config ++ [(k, v)]) = <[k := v]> (dict_update d config).
Proof. unfold dict_update. rewrite foldl_snoc. reflexivity. Qed.

(** [update] stores the members over the dict, a later member of the same
    key over an earlier one. *)
Lemma dict_update_reverse {V : Type} (d : gmap string V)
    (config : list (string * V)) :
  dict_update d config = list_to_map (reverse config) ∪ d.
Proof.
  induction config as [|[k v] config IH] using rev_ind.
  - symmetry. apply (left_id_L ∅ (∪)).
  - rewrite dict_update_snoc, IH, reverse_snoc. simpl.
    apply insert_union_l.
Qed.

Lemma dict_update_app {V : Type} (d : gmap string V)
    (config1 config2 : list (string * V)) :
  dict_update d (config1 ++ config2) = dict_update (dict_update d config1) config2.
Proof. unfold dict_update. apply foldl_app. Qed.

Lemma dict_update_absent {V : Type} (d : gmap string V)
    (config : list (string * V)) (k : string) :
  k ∉ config.*1 -> dict_update d config !! k = d !! k.
Proof.
  intros Hk. rewrite dict_update_reverse, lookup_union_r; [reflexivity|].
  apply not_elem_of_list_to_map_1. rewrite fmap_reverse, elem_of_reverse.
  exact Hk.
Qed.

(** X9.  An uploaded configuration is merged into the registry: the ids
    afterwards are the old ones and those of the document; a cell whose id
    is not in the document is kept as it was; for an id in the document the
    last member with that id is stored; importing the same document again
    changes nothing.  The queue is untouched and, unlike "Add Cell", the
    import writes no log entry.  "Load Sample Data" is the import of the
    two sample cells. *)
Theorem import_merges (config : list (string * Cell)) (st : SessionState) :
  let st' := (import_configuration config st).1 in
  dom (cells_data st') = dom (cells_data st) ∪ list_to_set config.*1
  /\ (forall k : string,
        k ∉ config.*1 -> cells_data st' !! k = cells_data st !! k)
  /\ (forall (before after : list (string * Cell)) (k : string) (c : Cell),
        config = (before ++ (k, c) :: after)%list ->
        k ∉ after.*1 -> cells_data st' !! k = Some c)
  /\ cells_data (import_configuration config st').1 = cells_data st'
  /\ task_queue st' = task_queue st
  /\ system_logs st' = system_logs st
  /\ (generate_sample_data st).1 = (import_configuration sample_cells st).1.
Proof.
  cbv zeta. unfold import_configuration, generate_sample_data. simpl.
  repeat split.
  - rewrite dict_update_reverse, dom_union_L, dom_list_to_map_L.
    rewrite (comm_L (∪)). f_equal. apply set_eq. intros k.
    rewrite !elem_of_list_to_set, fmap_reverse, elem_of_reverse. reflexivity.
  - intros k. apply dict_update_absent.
  - intros before after k c -> Hk.
    rewrite dict_update_app. change ((k, c) :: after) with ([(k, c)] ++ after)%list.
    rewrite dict_update_app, dict_update_absent by exact Hk.
    unfold dict_update at 1. simpl. apply lookup_insert_eq.
  - rewrite !dict_update_reverse, (assoc_L (∪)), (idemp_L (∪)). reflexivity.
Qed.

(** ** Status after the controls *)

Section StatusAfterControls.
Local Open Scope Q_scope.

Lemma status_critical_iff (c : Cell) :
  get_cell_status c = Critical
  <-> critical_condition (get_num voltage c) (get_num temp c)
        (get_num min_voltage c) (get_num max_voltage c).
Proof.
  rewrite <- critical_test. unfold get_cell_status. cbv zeta.
  destruct (_ || _ || _); [tauto|].
  destruct (_ || _); split; discriminate.
Qed.

Lemma status_warning_iff (c : Cell) :
  get_cell_status c = Warning
  <-> ~ critical_condition (get_num voltage c) (get_num temp c)
          (get_num min_voltage c) (get_num max_voltage c)
      /\ warning_condition (get_num voltage c) (get_num temp c)
           (get_num min_voltage c).
Proof.
  rewrite <- critical_test, <- warning_test. unfold get_cell_status. cbv zeta.
  assert (Hft : false = true -> False) by discriminate.
  destruct (_ || _ || _); [split; (discriminate || tauto)|].
  destruct (_ || _); split; (discriminate || tauto).
Qed.

(** X10.  After "EMERGENCY SHUTDOWN" every cell reads voltage 0 and current
    0, and is Critical exactly when its lower voltage bound is positive, its
    upper bound negative or its temperature above 45: so every cell whose
    bounds are those "Add Cell" gives is Critical after a shutdown. *)
Theorem shutdown_status (now : string) (st : SessionState)
    (cell_id : string) (c : Cell) :
  cells_data st !! cell_id = Some c ->
  exists c',
    cells_data (emergency_shutdown now st).1 !! cell_id = Some c'
    /\ get_num voltage c' == 0 /\ get_num current c' == 0
    /\ (get_cell_status c' = Critical
        <-> 0 < get_num min_voltage c \/ get_num max_voltage c < 0
            \/ 45 < get_num temp c)
    /\ (forall cell_type, chemistry_bounds cell_type c ->
        get_cell_status c' = Critical).
Proof.
  intros Hc. exists (shutdown_cell c). simpl.
  rewrite lookup_fmap, Hc. split; [reflexivity|].
  split; [reflexivity|]. split; [reflexivity|].
  assert (get_cell_status (shutdown_cell c) = Critical
          <-> 0 < get_num min_voltage c \/ get_num max_voltage c < 0
              \/ 45 < get_num temp c) as Hiff.
  { rewrite status_critical_iff. unfold critical_condition, get_num. simpl.
    assert (forall x : Q, 0.0 < x <-> 0 < x) as H1 by (intros x; split; lra).
    assert (forall x : Q, x < 0.0 <-> x < 0) as H2 by (intros x; split; lra).
    rewrite H1, H2. reflexivity. }
  split; [exact Hiff|].
  intros cell_type [Hlo _]. apply Hiff. left.
  unfold get_num. rewrite Hlo. destruct cell_type; reflexivity.
Qed.

Lemma shutdown_status_witness :
  exists c',
    cells_data (emergency_shutdown "t" one_cell).1 !! "A" = Some c'
    /\ get_cell_status c' = Critical.
Proof.
  assert (cells_data one_cell !! "A" = Some cell_A) as H by reflexivity.
  destruct (shutdown_status "t" one_cell "A" cell_A H)
    as (c' & Hc' & _ & _ & _ & Hchem).
  exists c'. split; [exact Hc'|].
  apply (Hchem lfp). split; reflexivity.
Defined.

Lemma prefix_occurs (needle s : string) :
  String.prefix needle s = true <-> exists post, s = needle +:+ post.
Proof.
  revert s. induction needle as [|a needle IH]; intros [|b s]; simpl.
  - split; [exists ""; reflexivity | reflexivity].
  - split; [exists (String b s); reflexivity | reflexivity].
  - split; [discriminate | intros [post H]; discriminate H].
  - destruct (Ascii.ascii_dec a b) as [->|Hab].
    + rewrite IH. split; intros [post H]; exists post.
      * rewrite H. reflexivity.
      * simpl in H. injection H as H. exact H.
    + split; [discriminate|]. intros [post H]. simpl in H.
      injection H as H1 H2. congruence.
Qed.

(** [contains] is Python's [in]: the needle occurs somewhere in the
    string. *)
Lemma contains_occurs (s needle : string) :
  contains s needle = true <-> occurs_in needle s.
Proof.
  unfold occurs_in. induction s as [|a s IH].
  - change (contains "" needle) with (String.prefix needle "" || false).
    rewrite orb_false_r, prefix_occurs. split.
    + intros [post H]. exists "", post. exact H.
    + intros (pre & post & H). destruct pre as [|b pre]; [|discriminate H].
      exists post. exact H.
  - change (contains (String a s) needle)
      with (String.prefix needle (String a s) || contains s needle).
    rewrite orb_true_iff, IH, prefix_occurs. split.
    + intros [[post H] | (pre & post & H)].
      * exists "", post. exact H.
      * exists (String a pre), post. simpl. rewrite H. reflexivity.
    + intros (pre & post & H). destruct pre as [|b pre].
      * left. exists post. exact H.
      * right. simpl in H. injection H as -> H. exists pre, post. exact H.
Qed.

(** X11.  "SYSTEM RESTART" sets the voltage of a cell to 3.2 exactly when
    "lfp" occurs in its id, to 3.6 otherwise, whatever the type of the
    cell.  A cell with the bounds "Add Cell" gives is never Critical after
    a restart; it is Good, except that a cell of another chemistry than lfp
    whose id contains "lfp" is left at its lower bound and is Warning. *)
Theorem restart_status (cell_id : string) (c : Cell) (cell_type : CellType) :
  chemistry_bounds cell_type c ->
  let c' := restart_cell cell_id c in
  (voltage c' = Some 3.2 <-> occurs_in "lfp" cell_id)
  /\ (voltage c' = Some 3.6 <-> ~ occurs_in "lfp" cell_id)
  /\ get_cell_status c' <> Critical
  /\ (get_cell_status c' = Warning
      <-> cell_type <> lfp /\ occurs_in "lfp" cell_id)
  /\ (forall (now : string) (st : SessionState),
        cells_data st !! cell_id = Some c ->
        cells_data (system_restart now st).1 !! cell_id = Some c').
Proof.
  intros [Hlo Hhi]. cbv zeta.
  rewrite <- contains_occurs. unfold restart_cell.
  assert (forall v : Q,
            get_cell_status (set_temp 25.0 (set_current 0.0 (set_voltage v c)))
            = get_cell_status
                (mkCell (Some v) None (Some 25.0) None (min_voltage c)
                   (max_voltage c) None None None)) as Hst by reflexivity.
  rewrite Hlo, Hhi in Hst.
  split; [|split; [|split; [|split]]].
  - destruct (contains cell_id "lfp"); simpl; split; done.
  - destruct (contains cell_id "lfp"); simpl; split; done.
  - destruct (contains cell_id "lfp"); rewrite Hst;
      destruct cell_type; vm_compute; discriminate.
  - destruct (contains cell_id "lfp"); rewrite Hst;
      destruct cell_type; vm_compute.
    all: split; try discriminate; try tauto; try (intros [H _]; congruence);
      try (intros [_ H]; discriminate H).
    all: intros _; split; [discriminate | reflexivity].
  - intros now st Hc. simpl. rewrite map_lookup_imap, Hc. reflexivity.
Qed.

Lemma restart_status_witness :
  get_cell_status (restart_cell "lfp_7" (new_cell nmc 4.5 1 60 10 50 0))
  = Warning.
Proof.
  assert (chemistry_bounds nmc (new_cell nmc 4.5 1 60 10 50 0)) as H
    by (split; reflexivity).
  destruct (restart_status "lfp_7" (new_cell nmc 4.5 1 60 10 50 0) nmc H)
    as (_ & _ & _ & Hw & _).
  apply Hw. split; [discriminate|]. exists "", "_7". reflexivity.
Defined.

End StatusAfterControls.

(** ** Batch operations, status and score *)

Section BatchStatus.
Local Open Scope Q_scope.

Lemma status_at_25 (c : Cell) :
  get_num temp c == 25 ->
  (get_cell_status c = Critical
   <-> get_num voltage c < get_num min_voltage c
       \/ get_num max_voltage c < get_num voltage c).
Proof.
  intros Ht. rewrite status_critical_iff. unfold critical_condition.
  rewrite Ht. split; [|tauto].
  intros [H | [H | H]]; [tauto | tauto | lra].
Qed.

(** X12.  The batch operations that write the current (Balance, Emergency
    Stop, Currents to Zero) change neither the status nor the health score
    of any cell: neither reads the current.  "Reset All Temperatures"
    leaves every cell with a temperature score of 100 and the other
    sub-scores as they were, and Critical exactly when its voltage is
    outside its bounds. *)
Theorem batch_status (now : string) (operation : Operation)
    (st : SessionState) (cell_id : string) (c : Cell) :
  cells_data st !! cell_id = Some c ->
  exists c',
    cells_data (execute_batch_operation now operation st).1 !! cell_id = Some c'
    /\ (operation <> Reset_All_Temperatures ->
        get_cell_status c' = get_cell_status c /\ score c' = score c)
    /\ (operation = Reset_All_Temperatures ->
        temp_score c' == 100
        /\ voltage_score c' = voltage_score c
        /\ cycle_score c' = cycle_score c
        /\ soc_score c' = soc_score c
        /\ (get_cell_status c' = Critical
            <-> get_num voltage c < get_num min_voltage c
                \/ get_num max_voltage c < get_num voltage c)).
Proof.
  intros Hc.
  exists (control_cell (Batch operation) cell_id c).
  split.
  { change (execute_batch_operation now operation st)
      with (control now (Batch operation) st).
    rewrite control_lookup, Hc. reflexivity. }
  destruct operation; simpl; split; intros Hop; try done;
    try (split; reflexivity).
  split; [reflexivity|]. repeat (split; [reflexivity|]).
  apply (status_at_25 (set_temp 25.0 c)). reflexivity.
Qed.

Lemma batch_status_witness :
  exists c',
    cells_data (execute_batch_operation "t" Emergency_Stop_All one_cell).1 !! "A"
    = Some c'
    /\ get_cell_status c' = Good.
Proof.
  assert (cells_data one_cell !! "A" = Some cell_A) as H by reflexivity.
  destruct (batch_status "t" Emergency_Stop_All one_cell "A" cell_A H)
    as (c' & Hc' & Hsame & _).
  exists c'. split; [exact Hc'|].
  destruct Hsame as [Hs _]; [discriminate|]. rewrite Hs. reflexivity.
Defined.

(** X13.  "Reset Cell" and "Apply Changes" write the selected cell only and
    keep the set of ids and the queue; a selected id that is not registered
    raises KeyError and changes nothing.  After a reset the cell is
    Critical exactly when its voltage is outside its bounds; after "Apply
    Changes" the cell reads the four values given, keeps its bounds,
    capacity, cycle count and type, and its status is that of the new
    voltage and temperature against the old bounds. *)
Theorem manual_control (now : string) (selected_cell : string)
    (v i t s : Q) (st : SessionState) :
  let r := reset_cell now selected_cell st in
  let a := apply_changes now selected_cell v i t s st in
  (cells_data st !! selected_cell = None ->
   r = (st, Raised "KeyError") /\ a = (st, Raised "KeyError"))
  /\ (forall c : Cell,
        cells_data st !! selected_cell = Some c ->
        (exists c',
            cells_data r.1 = <[selected_cell := c']> (cells_data st)
            /\ current c' = Some 0.0 /\ temp c' = Some 25.0
            /\ (get_cell_status c' = Critical
                <-> get_num voltage c < get_num min_voltage c
                    \/ get_num max_voltage c < get_num voltage c))
        /\ (exists c',
              cells_data a.1 = <[selected_cell := c']> (cells_data st)
              /\ voltage c' = Some v /\ current c' = Some i
              /\ temp c' = Some t /\ soc c' = Some s
              /\ min_voltage c' = min_voltage c
              /\ max_voltage c' = max_voltage c
              /\ capacity c' = capacity c
              /\ cycle_count c' = cycle_count c
              /\ type c' = type c
              /\ (get_cell_status c' = Critical
                  <-> critical_condition v t (get_num min_voltage c)
                        (get_num max_voltage c)))
        /\ dom (cells_data r.1) = dom (cells_data st)
        /\ dom (cells_data a.1) = dom (cells_data st)
        /\ task_queue r.1 = task_queue st
        /\ task_queue a.1 = task_queue st).
Proof.
  cbv zeta. unfold reset_cell, apply_changes. split.
  - intros ->. split; reflexivity.
  - intros c Hc. rewrite Hc.
    cbn [fst snd log_event cells_data task_queue system_logs].
    assert (forall c' : Cell,
              dom (<[selected_cell := c']> (cells_data st))
              = dom (cells_data st)) as Hd
      by (intros c'; apply dom_insert_lookup_L; eauto).
    split; [|split; [|repeat split; apply Hd]].
    + eexists. split; [reflexivity|]. split; [reflexivity|].
      split; [reflexivity|].
      apply (status_at_25 (set_temp 25.0 (set_current 0.0 c))). reflexivity.
    + eexists. split; [reflexivity|]. repeat (split; [reflexivity|]).
      apply (status_critical_iff
               (set_soc s (set_temp t (set_current i (set_voltage v c))))).
Qed.

End BatchStatus.

(** ** Quick statistics *)

Section Statistics.
Local Open Scope Q_scope.

Lemma inject_nat_S (n : nat) :
  inject_Z (Z.of_nat (S n)) == inject_Z (Z.of_nat n) + 1.
Proof. rewrite Nat2Z.inj_succ, <- Z.add_1_r, inject_Z_plus. reflexivity. Qed.

Lemma foldl_plus_bounds (lo hi : Q) (l : list Q) (a : Q) :
  Forall (λ x, lo <= x <= hi) l ->
  a + lo * inject_Z (Z.of_nat (length l)) <= foldl Qplus a l
  /\ foldl Qplus a l <= a + hi * inject_Z (Z.of_nat (length l)).
Proof.
  intros H. revert a. induction H as [|x l [Hx1 Hx2] _ IH]; intros a.
  - simpl. split; ring_simplify; apply Qle_refl.
  - change (foldl Qplus a (x :: l)) with (foldl Qplus (a + x) l).
    change (length (x :: l)) with (S (length l)).
    rewrite inject_nat_S. destruct (IH (a + x)) as [IH1 IH2].
    split; lra.
Qed.

(** X16.  The average state of charge of the statistics lies between the
    bounds of the cells' states of charge: for a registry that is not empty
    and whose cells all have a state of charge in [0,100], the average is in
    [0,100] too. *)
Theorem avg_soc_range (st : SessionState) :
  cells_data st <> ∅ ->
  (forall (cell_id : string) (c : Cell),
      cells_data st !! cell_id = Some c -> 0 <= get_num soc c <= 100) ->
  0 <= avg_soc st <= 100.
Proof.
  intros Hne Hall. unfold avg_soc, sum, values.
  assert (Forall (λ x, 0 <= x <= 100)
            (get_num soc <$> (map_to_list (cells_data st)).*2)) as HF.
  { apply Forall_fmap, Forall_forall. intros c Hc. simpl.
    apply list_elem_of_fmap in Hc as ([k c'] & -> & Hc).
    apply elem_of_map_to_list in Hc. exact (Hall k c' Hc). }
  destruct (foldl_plus_bounds 0 100 _ 0 HF) as [H1 H2].
  rewrite !length_fmap, length_map_to_list in H1, H2.
  assert (0 < inject_Z (Z.of_nat (size (cells_data st)))) as Hpos.
  { change 0 with (inject_Z 0). rewrite <- Zlt_Qlt.
    destruct (size (cells_data st)) eqn:E; [|lia].
    apply map_size_empty_inv in E. contradiction. }
  split.
  - apply Qle_shift_div_l; [exact Hpos|]. lra.
  - apply Qle_shift_div_r; [exact Hpos|]. lra.
Qed.

Lemma avg_soc_range_witness : 0 <= avg_soc one_cell <= 100.
Proof.
  apply avg_soc_range.
  - intros H. apply (f_equal (λ m : gmap string Cell, m !! "A")) in H.
    discriminate H.
  - intros cell_id c Hc. unfold one_cell in Hc. simpl in Hc.
    apply lookup_singleton_Some in Hc as [_ <-].
    split; unfold Qle; simpl; lia.
Defined.

End Statistics.

(** ** Statuses in a session *)

(** X17.  In every session from the initial state every task is Queued,
    Running or Paused: no button writes Completed.  So "Clear Completed"
    never removes a task, and a task leaves the queue through "Cancel"
    only: without a cancel the queue never shrinks. *)
Theorem session_statuses (clicks : list (string * Click)) :
  let st := run clicks initial_state in
  Forall (λ t, Task.status t = Queued \/ Task.status t = Running
               \/ Task.status t = Paused) (task_queue st)
  /\ task_queue (clear_completed st).1 = task_queue st
  /\ (forall (now : string) (c : Click),
        is_cancel c = false ->
        (length (task_queue st) <= length (task_queue (click now c st).1))%nat).
Proof.
  cbv zeta. pose proof (run_never_completed clicks) as Hnc.
  split; [|split].
  - eapply Forall_impl; [exact Hnc|]. intros t Ht. simpl in Ht.
    destruct (Task.status t); tauto.
  - simpl. apply filter_never_completed, Hnc.
  - intros now c Hc. set (st := run clicks initial_state) in *.
    destruct c as [| | | | | |[]| | | | | | | | |]; simpl;
      try discriminate Hc; try reflexivity.
    + destruct cell_id; reflexivity.
    + unfold remove_cell. destruct (_ !! _); reflexivity.
    + unfold reset_cell. destruct (_ !! _); reflexivity.
    + unfold apply_changes. destruct (_ !! _); reflexivity.
    + unfold create_task. destruct target_cells; [reflexivity|]. simpl.
      rewrite length_app. lia.
    + unfold start_next. destruct (task_queue st) eqn:E; simpl;
        [rewrite E|]; reflexivity.
    + rewrite length_fmap. reflexivity.
    + rewrite filter_never_completed by exact Hnc. reflexivity.
    + unfold start_task. destruct (select_task _ _) as [[i t]|]; simpl;
        [rewrite length_alter|]; reflexivity.
    + unfold pause_task. destruct (select_task _ _) as [[i t]|]; simpl;
        [rewrite length_alter|]; reflexivity.
Qed.

(** ** Create and cancel *)

(** X18.  Cancelling a task right after creating it, by the id it was
    given, gives back the queue as it was, provided no task of the queue
    already carried that id.  (When one does, the cancel removes that older
    task and the new one stays.) *)
Theorem create_then_cancel (now now' : string) (task_type : TaskType)
    (target_cells : list string) (priority : Priority.t)
    (task_description : string) (w : TaskWidgets) (st : SessionState) :
  target_cells <> [] ->
  let new_id := task_id (length (task_queue st) + 1) in
  let created :=
    (create_task now task_type target_cells priority task_description w st).1 in
  (new_id ∉ Task.id <$> task_queue st ->
   task_queue (cancel_task now' new_id created).1 = task_queue st)
  /\ (forall (i : nat) (older : Task.t),
        select_task new_id (task_queue st) = Some (i, older) ->
        exists new_task,
          Task.id new_task = new_id
          /\ task_queue (cancel_task now' new_id created).1
             = (delete i (task_queue st) ++ [new_task])%list).
Proof.
  intros Hne. cbv zeta. destruct target_cells as [|c cs]; [done|].
  unfold create_task.
  cbn [fst snd log_event cells_data task_queue system_logs].
  set (new_task := Task.mk _ _ _ _ _ _ _ _).
  split.
  - intros Hfresh.
    assert (select_task (task_id (length (task_queue st) + 1))
              (task_queue st ++ [new_task])
            = Some (length (task_queue st), new_task)) as Hsel.
    { unfold select_task. apply list_find_Some. split; [|split].
      - rewrite lookup_app_r, Nat.sub_diag by lia. reflexivity.
      - reflexivity.
      - intros j y Hj Hlt Hy. apply Hfresh.
        rewrite lookup_app_l in Hj by exact Hlt.
        apply list_elem_of_fmap. exists y. split; [symmetry; exact Hy|].
        eapply list_elem_of_lookup_2, Hj. }
    unfold cancel_task.
    cbn [fst snd log_event cells_data task_queue system_logs].
    rewrite Hsel, (list_remove_selected _ _ _ _ Hsel).
    cbn [fst snd log_event cells_data task_queue system_logs].
    rewrite delete_take_drop, take_app_length.
    replace (S (length (task_queue st)))
      with (length (task_queue st ++ [new_task]))
      by (rewrite length_app; simpl; lia).
    rewrite drop_all. apply app_nil_r.
  - intros i older Hold. exists new_task. split; [reflexivity|].
    assert (select_task (task_id (length (task_queue st) + 1))
              (task_queue st ++ [new_task]) = Some (i, older)) as Hsel.
    { unfold select_task in *. apply list_find_app_Some. left. exact Hold. }
    unfold cancel_task.
    cbn [fst snd log_event cells_data task_queue system_logs].
    rewrite Hsel, (list_remove_selected _ _ _ _ Hsel).
    cbn [fst snd log_event cells_data task_queue system_logs].
    apply list_find_Some in Hold as (Hi & _ & _).
    apply lookup_lt_Some in Hi.
    rewrite !delete_take_drop, take_app_le, drop_app_le by lia.
    rewrite app_assoc. reflexivity.
Qed.

Lemma create_then_cancel_witness :
  task_queue (cancel_task "t2" "task_4"
                (create_task "t1" IDLE ["A"] Priority.Low "" default_widgets
                   three_queued).1).1
  = task_queue three_queued.
Proof.
  assert (["A"] <> @nil string) as Hne by discriminate.
  destruct (create_then_cancel "t1" "t2" IDLE ["A"] Priority.Low ""
              default_widgets three_queued Hne) as [Hfresh _].
  apply Hfresh. vm_compute. intros H.
  repeat (apply elem_of_cons in H as [H | H]; [discriminate H|]).
  apply elem_of_nil in H. exact H.
Defined.

(** ** The dashboard after a shutdown *)

Lemma count_all {A : Type} (p : A -> bool) (l : list A) :
  Forall (λ x, p x = true) l -> count p l = length l.
Proof.
  induction 1 as [|x l Hx _ IH]; [reflexivity|].
  rewrite count_cons, Hx, IH. reflexivity.
Qed.

(** X19.  After "EMERGENCY SHUTDOWN" of a registry whose cells all have a
    positive lower voltage bound, the dashboard counts every cell as
    critical and none as healthy or warning. *)
Theorem shutdown_dashboard (now : string) (st : SessionState) :
  (forall (cell_id : string) (c : Cell),
      cells_data st !! cell_id = Some c -> (0 < get_num min_voltage c)%Q) ->
  let st' := (emergency_shutdown now st).1 in
  critical_cells st' = total_cells st
  /\ good_cells st' = 0%nat
  /\ warning_cells st' = 0%nat
  /\ total_cells st' = total_cells st.
Proof.
  intros Hpos. cbv zeta.
  unfold critical_cells, good_cells, warning_cells, total_cells. simpl.
  assert (Forall (λ c', get_cell_status c' = Critical)
            (values (shutdown_cell <$> cells_data st))) as Hall.
  { apply Forall_forall. intros c' Hc'. unfold values in Hc'.
    apply list_elem_of_fmap in Hc' as ([k c''] & -> & Hk).
    apply elem_of_map_to_list in Hk. rewrite lookup_fmap in Hk.
    destruct (cells_data st !! k) as [c|] eqn:Hc; [|discriminate Hk].
    simpl in Hk. injection Hk as <-. simpl.
    apply status_critical_iff. left.
    change (get_num voltage (shutdown_cell c)) with (0.0)%Q.
    change (get_num min_voltage (shutdown_cell c)) with (get_num min_voltage c).
    specialize (Hpos k c Hc). lra. }
  assert (length (values (shutdown_cell <$> cells_data st))
          = size (cells_data st)) as Hlen.
  { unfold values. rewrite length_fmap, length_map_to_list. apply map_size_fmap. }
  split; [|split; [|split]].
  - rewrite <- Hlen. apply count_all. eapply Forall_impl; [exact Hall|].
    intros c' ->. reflexivity.
  - apply count_zero. eapply Forall_impl; [exact Hall|].
    intros c' Hc'. simpl. rewrite Hc'. reflexivity.
  - apply count_zero. eapply Forall_impl; [exact Hall|].
    intros c' Hc'. simpl. rewrite Hc'. reflexivity.
  - apply map_size_fmap.
Qed.

Lemma shutdown_dashboard_witness :
  critical_cells (emergency_shutdown "t" one_cell).1 = 1%nat.
Proof.
  assert (forall (cell_id : string) (c : Cell),
            cells_data one_cell !! cell_id = Some c ->
            (0 < get_num min_voltage c)%Q) as Hpos.
  { intros cell_id c Hc. unfold one_cell in Hc. simpl in Hc.
    apply lookup_singleton_Some in Hc as [_ <-]. reflexivity. }
  destruct (shutdown_dashboard "t" one_cell Hpos) as [H _].
  rewrite H. reflexivity.
Defined.
